(** * Account REST service: the resource handlers of [service/routes.py]

    The handlers are embedded as computations in a small state-and-exception
    monad over a [world]: the table of Account rows, the clock read by
    [date.today()], and the log of the calls a request made to the body
    parser and to the persistence layer, in the order it made them. *)

From stdpp Require Import base option list strings gmap pretty.

Open Scope string_scope.
Open Scope Z_scope.

(** ** JSON values, as [request.get_json()] yields them and [jsonify] takes them *)

#[warnings="-register-all"]
Inductive json : Type :=
  | JNull
  | JBool (b : bool)
  | JNum (n : Z)
  | JStr (s : string)
  | JArr (xs : list json)
  | JObj (kvs : list (string * json)).

(** [data.get(key)] of a dict: the first binding of [key]. *)
Fixpoint dict_get (key : string) (kvs : list (string * json)) : option json :=
  match kvs with
  | [] => None
  | (k, v) :: rest => if String.eqb k key then Some v else dict_get key rest
  end.

(** ** Dates *)

Record date : Type := mkDate { year : Z; month : Z; day : Z }.

Definition is_digit (c : Ascii.ascii) : bool :=
  let n := Ascii.N_of_ascii c in (48 <=? n)%N && (n <=? 57)%N.

Definition digit_value (c : Ascii.ascii) : Z := Z.of_N (Ascii.N_of_ascii c) - 48.

(** The decimal value of a string of digits, most significant first. *)
Fixpoint digits_value (acc : Z) (s : string) : option Z :=
  match s with
  | EmptyString => Some acc
  | String c rest =>
      if is_digit c then digits_value (10 * acc + digit_value c) rest else None
  end.

Definition is_leap (y : Z) : bool :=
  ((y mod 4 =? 0) && negb (y mod 100 =? 0)) || (y mod 400 =? 0).

Definition days_in_month (y m : Z) : Z :=
  if m =? 2 then (if is_leap y then 29 else 28)
  else if (m =? 4) || (m =? 6) || (m =? 9) || (m =? 11) then 30
  else 31.

Definition valid_date (d : date) : bool :=
  (1 <=? year d) && (year d <=? 9999) &&
  (1 <=? month d) && (month d <=? 12) &&
  (1 <=? day d) && (day d <=? days_in_month (year d) (month d)).

(** Modelled from the spec: [service/models.py] is not part of the sources at
    hand; the spec has [date_joined] travel as an ISO-8601 date string, read
    here in the calendar form [YYYY-MM-DD]. *)
Definition date_fromisoformat (s : string) : option date :=
  if negb (String.length s =? 10)%nat then None else
  match digits_value 0 (String.substring 0 4 s),
        digits_value 0 (String.substring 5 2 s),
        digits_value 0 (String.substring 8 2 s) with
  | Some y, Some m, Some d =>
      if String.eqb (String.substring 4 1 s) "-" && String.eqb (String.substring 7 1 s) "-"
         && valid_date (mkDate y m d)
      then Some (mkDate y m d) else None
  | _, _, _ => None
  end.

Fixpoint zeros (n : nat) : string :=
  match n with
  | O => ""
  | S k => "0" +:+ zeros k
  end.

(** [s] with zeros in front up to [width] characters; a longer [s] is left
    as it is. *)
Definition zero_pad (width : nat) (s : string) : string :=
  zeros (width - String.length s) +:+ s.

(** Modelled from the spec: the ISO-8601 rendering of a date
    ([service/models.py] is absent). *)
Definition date_isoformat (d : date) : string :=
  zero_pad 4 (pretty (year d)) +:+ "-" +:+
  zero_pad 2 (pretty (month d)) +:+ "-" +:+
  zero_pad 2 (pretty (day d)).

(** ** HTTP status codes, [service/common/status.py] *)

Module status.
(** Modelled from the spec: the module is not among the sources at hand; the
    names are the ones [routes.py] uses, the numbers the ones the spec gives
    for each outcome. *)
Definition HTTP_200_OK : Z := 200.
Definition HTTP_201_CREATED : Z := 201.
Definition HTTP_204_NO_CONTENT : Z := 204.
Definition HTTP_400_BAD_REQUEST : Z := 400.
Definition HTTP_404_NOT_FOUND : Z := 404.
Definition HTTP_405_METHOD_NOT_ALLOWED : Z := 405.
Definition HTTP_415_UNSUPPORTED_MEDIA_TYPE : Z := 415.
Definition HTTP_500_INTERNAL_SERVER_ERROR : Z := 500.
End status.

(** ** Requests and responses *)

(** HEAD and OPTIONS, which the framework answers by itself, are left out. *)
Inductive method : Type := GET | POST | PUT | DELETE | PATCH.

#[global] Instance method_eq_dec : EqDecision method.
Proof. solve_decision. Defined.

Definition lower_ascii (c : Ascii.ascii) : Ascii.ascii :=
  let n := Ascii.N_of_ascii c in
  if (65 <=? n)%N && (n <=? 90)%N then Ascii.ascii_of_N (n + 32) else c.

Fixpoint lower (s : string) : string :=
  match s with
  | EmptyString => EmptyString
  | String c rest => String (lower_ascii c) (lower rest)
  end.

(** [request.headers.get(name)]: header names compare without regard to
    case; an absent header is [None]. *)
Fixpoint headers_get (name : string) (hs : list (string * string)) : option string :=
  match hs with
  | [] => None
  | (k, v) :: rest =>
      if String.eqb (lower k) (lower name) then Some v else headers_get name rest
  end.

(** A request as the handlers see it. [req_json] is what parsing the body as
    JSON gives: [None] for a body that is not JSON. *)
Record request : Type := mkRequest {
  req_method : method;
  req_path : string;
  req_headers : list (string * string);
  req_json : option json
}.

(** [resp_body = None] is the empty body. Of the headers only those a handler
    sets itself are kept. *)
Record response : Type := mkResponse {
  status_code : Z;
  resp_headers : list (string * string);
  resp_body : option json
}.

(** ** Exceptions *)

Inductive exn : Type :=
  | HTTPException (code : Z) (description : string)  (* raised by [abort] *)
  | DataValidationError (msg : string)
  | PersistenceError (msg : string).

(** ** The Account entity and its table *)

Module Account.
(** Modelled from the spec: the class is declared in [service/models.py],
    which is not among the sources at hand; the attributes are those of the
    spec's data model. A fresh [Account()] has every attribute [None]. *)
Record t : Type := mk {
  id : option Z;
  name : option string;
  email : option string;
  address : option string;
  phone_number : option string;
  date_joined : option date
}.

Definition blank : t := mk None None None None None None.

Definition set_id (i : option Z) (a : t) : t :=
  mk i (name a) (email a) (address a) (phone_number a) (date_joined a).
End Account.

(** One table of Account rows keyed by the primary key, and the next value
    of its auto-increment sequence. *)
Record Store : Type := mkStore {
  rows : gmap Z Account.t;
  next_id : Z
}.

(** What a request did, in order: calls to the body parser and to the
    Entity Mapper. *)
Inductive call : Type :=
  | CallGetJson
  | CallDeserialize
  | CallCreate
  | CallFind (i : Z)
  | CallUpdate
  | CallSerialize.

#[global] Instance call_eq_dec : EqDecision call.
Proof. solve_decision. Defined.

Record world : Type := mkWorld {
  db : Store;
  today : date;        (* what [date.today()] returns *)
  calls : list call    (* oldest first *)
}.

(** ** The monad of handler code: state passing with exceptions *)

Definition M (A : Type) : Type := world -> (exn + A) * world.

#[global] Instance M_ret : MRet M := fun A (a : A) w => (inr a, w).

#[global] Instance M_bind : MBind M := fun A B (f : A -> M B) (m : M A) w =>
  match m w with
  | (inl e, w') => (inl e, w')
  | (inr a, w') => f a w'
  end.

Definition raise {A} (e : exn) : M A := fun w => (inl e, w).

(** [abort(code, description)] of Flask. *)
Definition abort {A} (code : Z) (description : string) : M A :=
  raise (HTTPException code description).

Definition record_call (c : call) : M unit := fun w =>
  (inr tt, mkWorld (db w) (today w) (calls w ++ [c])).

Definition get_db : M Store := fun w => (inr (db w), w).

Definition put_db (s : Store) : M unit := fun w =>
  (inr tt, mkWorld s (today w) (calls w)).

Definition get_today : M date := fun w => (inr (today w), w).

(** ** Entity Mapper: the methods of [Account] *)

(** Code that can only raise: results in [exn + A]. *)
Definition E (A : Type) : Type := exn + A.

#[global] Instance E_ret : MRet E := fun A (a : A) => inr a.

#[global] Instance E_bind : MBind E := fun A B (f : A -> E B) (m : E A) =>
  match m with
  | inl e => inl e
  | inr a => f a
  end.

Definition lift_E {A} (m : E A) : M A := fun w => (m, w).

Definition bad_data (key : string) : exn :=
  DataValidationError
    ("Invalid Account: body of request contained bad or no data " +:+ key).

Definition required_string (key : string) (kvs : list (string * json)) : E string :=
  match dict_get key kvs with
  | None => inl (DataValidationError ("Invalid Account: missing " +:+ key))
  | Some (JStr s) => inr s
  | Some _ => inl (bad_data key)
  end.

Definition optional_string (key : string) (kvs : list (string * json)) : E (option string) :=
  match dict_get key kvs with
  | None | Some JNull => inr None
  | Some (JStr s) => inr (Some s)
  | Some _ => inl (bad_data key)
  end.

Definition optional_date (now : date) (key : string) (kvs : list (string * json)) : E date :=
  match dict_get key kvs with
  | None | Some JNull => inr now
  | Some (JStr s) =>
      match date_fromisoformat s with
      | Some d => inr d
      | None => inl (bad_data key)
      end
  | Some _ => inl (bad_data key)
  end.

(** The fields of [self] populated from [data], [now] being the current date. *)
Definition populate (now : date) (self : Account.t) (data : json) : E Account.t :=
  match data with
  | JObj kvs =>
      n ← required_string "name" kvs;
      e ← required_string "email" kvs;
      a ← required_string "address" kvs;
      p ← optional_string "phone_number" kvs;
      d ← optional_date now "date_joined" kvs;
      mret (Account.mk (Account.id self) (Some n) (Some e) (Some a) p (Some d))
  | _ => inl (bad_data "")
  end.

(** Modelled from the spec: [Account.deserialize] of [service/models.py],
    which is not among the sources at hand. It populates the fields from a
    mapping, fails with a validation error when [data] is not a mapping, when
    one of [name], [email], [address] is missing, or when a field has the
    wrong shape; [phone_number] is optional and [date_joined] defaults to the
    current date. The [id] of [self] is left alone. *)
Definition Account_deserialize (self : Account.t) (data : json) : M Account.t :=
  _ ← record_call CallDeserialize;
  now ← get_today;
  lift_E (populate now self data).

Definition json_of_option {A} (f : A -> json) (o : option A) : json :=
  match o with
  | Some a => f a
  | None => JNull
  end.

(** The flat mapping of all attributes, [date_joined] as an ISO date string. *)
Definition Account_to_dict (self : Account.t) : json :=
  JObj [ ("id", json_of_option JNum (Account.id self));
         ("name", json_of_option JStr (Account.name self));
         ("email", json_of_option JStr (Account.email self));
         ("address", json_of_option JStr (Account.address self));
         ("phone_number", json_of_option JStr (Account.phone_number self));
         ("date_joined",
           json_of_option (fun d => JStr (date_isoformat d)) (Account.date_joined self)) ].

(** Modelled from the spec: [Account.serialize] of the absent
    [service/models.py]. *)
Definition Account_serialize (self : Account.t) : M json :=
  _ ← record_call CallSerialize;
  mret (Account_to_dict self).

(** Modelled from the spec: [Account.create] of the absent
    [service/models.py]: a new unique [id] from the table's sequence, then
    the insert. The result is [self] as it is after the call. The table of
    this model takes every write: a write the store refuses (a constraint,
    a lost connection), which the spec has surface as a 5xx, is outside
    the model. *)
Definition Account_create (self : Account.t) : M Account.t :=
  _ ← record_call CallCreate;
  s ← get_db;
  let created := Account.set_id (Some (next_id s)) self in
  _ ← put_db (mkStore (<[next_id s := created]> (rows s)) (next_id s + 1));
  mret created.

(** Modelled from the spec: [Account.find] of the absent
    [service/models.py]: lookup by primary key, [None] when absent. *)
Definition Account_find (by_id : Z) : M (option Account.t) :=
  _ ← record_call (CallFind by_id);
  s ← get_db;
  mret (rows s !! by_id).

(** Modelled from the spec: [Account.update] of the absent
    [service/models.py]: the in-memory field values are written over the
    existing row matched by [id]; a persistence error if there is none. As
    for [Account_create], a write the store refuses is outside the model. *)
Definition Account_update (self : Account.t) : M unit :=
  _ ← record_call CallUpdate;
  s ← get_db;
  match Account.id self with
  | Some k =>
      match rows s !! k with
      | Some _ => put_db (mkStore (<[k := self]> (rows s)) (next_id s))
      | None => raise (PersistenceError "row does not exist")
      end
  | None => raise (PersistenceError "row does not exist")
  end.

(** ** [service/routes.py]

    The [app.logger] calls of the file only write to the log; they have no
    part in the response or in the table and are left out. *)

(** [request.get_json()]: the parsed body, or 400 Bad Request when the body
    is not JSON. It is only reached where the media type has already been
    checked to be [application/json]. *)
Definition get_json (req : request) : M json :=
  _ ← record_call CallGetJson;
  match req_json req with
  | Some j => mret j
  | None =>
      abort status.HTTP_400_BAD_REQUEST
        "The browser (or proxy) sent a request that this server could not understand."
  end.

(** Truth value of an optional string as Python's [if] takes it: [None] and
    the empty string are false. *)
Definition truthy (o : option string) : bool :=
  match o with
  | Some s => negb (String.eqb s "")
  | None => false
  end.

(** Checks that the media type is correct. *)
Definition check_content_type (media_type : string) (req : request) : M unit :=
  let content_type := headers_get "Content-Type" (req_headers req) in
  if truthy content_type && bool_decide (content_type = Some media_type)
  then mret tt
  else abort status.HTTP_415_UNSUPPORTED_MEDIA_TYPE
         ("Content-Type must be " +:+ media_type).

(** [jsonify(dict(status="OK")), 200] *)
Definition health (req : request) : M response :=
  mret (mkResponse status.HTTP_200_OK [] (Some (JObj [("status", JStr "OK")]))).

Definition index (req : request) : M response :=
  mret (mkResponse status.HTTP_200_OK []
          (Some (JObj [("name", JStr "Account REST API Service");
                       ("version", JStr "1.0")]))).

(** Creates an Account from the data in the body that is posted. *)
Definition create_accounts (req : request) : M response :=
  _ ← check_content_type "application/json" req;
  let account := Account.blank in
  data ← get_json req;
  account ← Account_deserialize account data;
  account ← Account_create account;
  message ← Account_serialize account;
  let location_url := "/" in
  mret (mkResponse status.HTTP_201_CREATED [("Location", location_url)] (Some message)).

Definition not_found_message (id : Z) : string :=
  "Account with id '" +:+ pretty id +:+ "' was not found.".

(** Reads an Account based on its id. *)
Definition read_account (id : Z) (req : request) : M response :=
  account ← Account_find id;
  match account with
  | None => abort status.HTTP_404_NOT_FOUND (not_found_message id)
  | Some account =>
      account_dict ← Account_serialize account;
      mret (mkResponse status.HTTP_200_OK [] (Some account_dict))
  end.

(** Updates an Account based on the body that is posted. *)
Definition update_products (id : Z) (req : request) : M response :=
  _ ← check_content_type "application/json" req;
  account ← Account_find id;
  match account with
  | None => abort status.HTTP_404_NOT_FOUND (not_found_message id)
  | Some account =>
      data ← get_json req;
      account ← Account_deserialize account data;
      let account := Account.set_id (Some id) account in
      _ ← Account_update account;
      body ← Account_serialize account;
      mret (mkResponse status.HTTP_200_OK [] (Some body))
  end.

(** ** Routing: the [@app.route] table and its dispatch *)

(** A URL rule is a sequence of literal pieces and [<int:...>] converters. *)
Inductive piece : Type :=
  | Lit (s : string)
  | IntConv.

Inductive view : Type :=
  | View0 (h : request -> M response)
  | View1 (h : Z -> request -> M response).

Record rule : Type := mkRule {
  rule_pieces : list piece;
  rule_methods : list method;
  rule_view : view
}.

(** The routes [routes.py] registers, in the order it registers them. The
    regions "LIST ALL ACCOUNTS" and "DELETE AN ACCOUNT" of the file hold no
    code, so they contribute no rule. *)
Definition url_map : list rule :=
  [ mkRule [Lit "/health"] [GET] (View0 health);
    mkRule [Lit "/"] [GET] (View0 index);
    mkRule [Lit "/accounts"] [POST] (View0 create_accounts);
    mkRule [Lit "/accounts/"; IntConv] [GET] (View1 read_account);
    mkRule [Lit "/accounts/"; IntConv] [PUT] (View1 update_products) ].

Fixpoint strip_prefix (p s : string) : option string :=
  match p, s with
  | EmptyString, _ => Some s
  | String a p', String b s' => if Ascii.eqb a b then strip_prefix p' s' else None
  | String _ _, EmptyString => None
  end.

(** The longest run of decimal digits at the head of [s], and what follows. *)
Fixpoint span_digits (s : string) : string * string :=
  match s with
  | String c rest =>
      if is_digit c
      then let '(ds, tl) := span_digits rest in (String c ds, tl)
      else (EmptyString, s)
  | EmptyString => (EmptyString, EmptyString)
  end.

(** Matches a whole path against a rule; the converters' values on success.
    Paths are taken to be ASCII: [<int:id>] is matched on the digits 0 to 9,
    and a path holding decimal digits of another script is outside the
    model. *)
Fixpoint match_pieces (ps : list piece) (path : string) : option (list Z) :=
  match ps with
  | [] => if String.eqb path "" then Some [] else None
  | Lit s :: ps' =>
      match strip_prefix s path with
      | Some rest => match_pieces ps' rest
      | None => None
      end
  | IntConv :: ps' =>
      let '(ds, rest) := span_digits path in
      match ds, digits_value 0 ds with
      | String _ _, Some n =>
          match match_pieces ps' rest with
          | Some args => Some (n :: args)
          | None => None
          end
      | _, _ => None
      end
  end.

Definition call_view (v : view) (args : list Z) (req : request) : M response :=
  match v, args with
  | View0 h, [] => h req
  | View1 h, [a] => h a req
  | _, _ => raise (HTTPException status.HTTP_500_INTERNAL_SERVER_ERROR "view arity")
  end.

(** The rules whose path matches, with the converted arguments. *)
Fixpoint matching_rules (rs : list rule) (path : string) : list (rule * list Z) :=
  match rs with
  | [] => []
  | r :: rs' =>
      match match_pieces (rule_pieces r) path with
      | Some args => (r, args) :: matching_rules rs' path
      | None => matching_rules rs' path
      end
  end.

Fixpoint first_allowing (m : method) (cands : list (rule * list Z)) : option (rule * list Z) :=
  match cands with
  | [] => None
  | (r, args) :: rest =>
      if bool_decide (m ∈ rule_methods r) then Some (r, args) else first_allowing m rest
  end.

(** The description of werkzeug's [NotFound]. *)
Definition not_found_description : string :=
  "The requested URL was not found on the server. If you entered the URL manually please check your spelling and try again.".

(** Dispatch of a request: 404 when no rule matches the path, 405 when rules
    match the path but none of them takes the method, else the view. The
    redirects the router issues for a path that only matches once its
    repeated slashes are merged are not modelled: such a path is a 404
    here. *)
Definition dispatch_request (req : request) : M response :=
  match matching_rules url_map (req_path req) with
  | [] => abort status.HTTP_404_NOT_FOUND not_found_description
  | cands =>
      match first_allowing (req_method req) cands with
      | Some (r, args) => call_view (rule_view r) args req
      | None =>
          abort status.HTTP_405_METHOD_NOT_ALLOWED
            "The method is not allowed for the requested URL."
      end
  end.

(** Modelled from the spec: the error handlers ([service/common]) are not
    among the sources at hand. An error becomes a JSON body with a
    [message]: an aborted request keeps its code and description, a
    validation error is 400 with its message, a persistence error is a 5xx
    with a generic message. *)
Definition error_response (e : exn) : response :=
  match e with
  | HTTPException code description =>
      mkResponse code [] (Some (JObj [("message", JStr description)]))
  | DataValidationError msg =>
      mkResponse status.HTTP_400_BAD_REQUEST [] (Some (JObj [("message", JStr msg)]))
  | PersistenceError _ =>
      mkResponse status.HTTP_500_INTERNAL_SERVER_ERROR []
        (Some (JObj [("message", JStr "Internal Server Error")]))
  end.

(** One request served against a world: the response and the world after. *)
Definition serve (req : request) (w : world) : response * world :=
  match dispatch_request req w with
  | (inr resp, w') => (resp, w')
  | (inl e, w') => (error_response e, w')
  end.


(** ** Vocabulary of the statements *)

(** Whether a string is made of decimal digits only. *)
Fixpoint all_digits (s : string) : bool :=
  match s with
  | EmptyString => true
  | String c rest => is_digit c && all_digits rest
  end.

(** The URL of the Account with id [i], as a client writes it. *)
Definition account_url (i : Z) : string := "/accounts/" +:+ pretty i.

(** The calls that write to the table. *)
Definition mutating (c : call) : bool :=
  match c with
  | CallCreate | CallUpdate => true
  | _ => false
  end.

(** What a JSON object says about the optional [phone_number]: a string, or
    nothing (absent or null). *)
Definition phone_given (kvs : list (string * json)) (p : option string) : Prop :=
  match p with
  | Some s => dict_get "phone_number" kvs = Some (JStr s)
  | None =>
      dict_get "phone_number" kvs = None \/ dict_get "phone_number" kvs = Some JNull
  end.

(** What it says about [date_joined]: an ISO date, or nothing, which stands
    for the current date [now]. *)
Definition date_given (now : date) (kvs : list (string * json)) (d : date) : Prop :=
  (exists s : string,
      dict_get "date_joined" kvs = Some (JStr s) /\ date_fromisoformat s = Some d)
  \/ ((dict_get "date_joined" kvs = None \/ dict_get "date_joined" kvs = Some JNull)
      /\ d = now).

(** A valid Account payload: string [name], [email] and [address], and the
    two optional fields well-formed when given. *)
Definition account_payload (now : date) (kvs : list (string * json))
    (n e a : string) (p : option string) (d : date) : Prop :=
  dict_get "name" kvs = Some (JStr n) /\
  dict_get "email" kvs = Some (JStr e) /\
  dict_get "address" kvs = Some (JStr a) /\
  phone_given kvs p /\
  date_given now kvs d.

(** The errors that are answered 400. *)
Definition is_validation_error (e : exn) : Prop :=
  exists msg : string, e = DataValidationError msg.

(** The table as the persistence layer keeps it: primary keys are positive
    and below the next value of the sequence, and a row carries its key. *)
Definition wf_store (s : Store) : Prop :=
  forall (k : Z) (row : Account.t),
    rows s !! k = Some row -> 1 <= k < next_id s /\ Account.id row = Some k.

(** What the dispatch of a request can come to: one of the two routing
    errors, or one of the five views of [routes.py] under a method its rule
    takes. *)
Inductive dispatched (req : request) : M response -> Prop :=
  | dispatched_not_found :
      dispatched req
        (abort status.HTTP_404_NOT_FOUND not_found_description)
  | dispatched_not_allowed :
      dispatched req
        (abort status.HTTP_405_METHOD_NOT_ALLOWED
           "The method is not allowed for the requested URL.")
  | dispatched_health :
      req_method req = GET -> dispatched req (health req)
  | dispatched_index :
      req_method req = GET -> dispatched req (index req)
  | dispatched_create_accounts :
      req_method req = POST -> dispatched req (create_accounts req)
  | dispatched_read_account (i : Z) :
      req_method req = GET -> dispatched req (read_account i req)
  | dispatched_update_products (i : Z) :
      req_method req = PUT -> dispatched req (update_products i req).

(** ** The test client and the helpers of [tests/test_routes.py] *)

Definition BASE_URL : string := "/accounts".

(** [self.client.post(url, json=body)]: the body goes out as JSON under the
    matching Content-Type. *)
Definition client_post_json (url : string) (body : json) : request :=
  mkRequest POST url [("Content-Type", "application/json")] (Some body).

(** [self.client.get(url)] *)
Definition client_get (url : string) : request := mkRequest GET url [] None.

(** [self.client.put(url, json=body)] *)
Definition client_put_json (url : string) (body : json) : request :=
  mkRequest PUT url [("Content-Type", "application/json")] (Some body).

(** [_create_accounts]: posts the bodies one after the other and collects the
    [id] of each answer; [None] when an answer is not 201 (the assertion
    fails) or carries no [id]. The bodies stand for the serialized accounts
    of [AccountFactory], which is not among the sources at hand. *)
Fixpoint _create_accounts (bodies : list json) (w : world) : option (list json) * world :=
  match bodies with
  | [] => (Some [], w)
  | body :: rest =>
      let '(response, w1) := serve (client_post_json BASE_URL body) w in
      if bool_decide (status_code response = status.HTTP_201_CREATED) then
        match resp_body response with
        | Some (JObj new_account) =>
            match dict_get "id" new_account with
            | Some i =>
                let '(accounts, w2) := _create_accounts rest w1 in
                (cons i <$> accounts, w2)
            | None => (None, w1)
            end
        | _ => (None, w1)
        end
      else (None, w1)
  end.

(** A JSON value that is a valid Account payload on the date [now]. *)
Definition valid_body (now : date) (body : json) : Prop :=
  exists (kvs : list (string * json)) (n e a : string) (p : option string) (d : date),
    body = JObj kvs /\ account_payload now kvs n e a p d.

(** Whether [n], zero-padded on [w] digits, is [w] characters long and reads
    back as [n]. *)
Definition pad_ok (w : nat) (n : nat) : bool :=
  let s := zero_pad w (pretty (Z.of_nat n)) in
  (String.length s =? w)%nat && bool_decide (digits_value 0 s = Some (Z.of_nat n)).

(** [d[key] = v] on a dict: the value of an existing key is replaced where
    it stands, a new key goes last. *)
Fixpoint dict_set (key : string) (v : json) (kvs : list (string * json))
    : list (string * json) :=
  match kvs with
  | [] => [(key, v)]
  | (k, x) :: rest =>
      if String.eqb k key then (k, v) :: rest else (k, x) :: dict_set key v rest
  end.

#[local] Arguments populate : simpl never.

(** Unfolds the monad down to world-passing functions. *)
Ltac run :=
  unfold serve, create_accounts, read_account, update_products, get_json,
    Account_deserialize, Account_create, Account_find, Account_update,
    Account_serialize, abort, raise, lift_E, record_call, get_db, put_db,
    get_today, mbind, M_bind, mret, M_ret;
  simpl.

(** * Properties *)

(** ** Decimal text of an id and the [<int:id>] converter *)

Lemma append_cons (x : Ascii.ascii) (a b : string) :
  String x a +:+ b = String x (a +:+ b).
Proof. reflexivity. Qed.

Lemma digits_value_app (a b : string) (acc : Z) :
  digits_value acc (a +:+ b) =
  match digits_value acc a with
  | Some v => digits_value v b
  | None => None
  end.
Proof.
  revert acc. induction a as [|c a IH]; intros acc; [done|].
  rewrite append_cons. simpl. destruct (is_digit c); [apply IH | done].
Qed.

Lemma all_digits_app (a b : string) :
  all_digits (a +:+ b) = all_digits a && all_digits b.
Proof.
  induction a as [|c a IH]; [done|].
  rewrite append_cons. simpl. rewrite IH. by rewrite andb_assoc.
Qed.

Lemma span_digits_all (s : string) :
  all_digits s = true -> span_digits s = (s, "").
Proof.
  induction s as [|c s IH]; simpl; [done|].
  intros [Hc Hs]%andb_true_iff. rewrite Hc, (IH Hs). done.
Qed.

Lemma pretty_N_char_digit (d : N) : is_digit (pretty_N_char d) = true.
Proof. unfold pretty_N_char. by repeat case_match. Qed.

Lemma pretty_N_char_value (d : N) :
  (d < 10)%N -> digit_value (pretty_N_char d) = Z.of_N d.
Proof.
  intros Hd.
  assert (d = 0 ∨ d = 1 ∨ d = 2 ∨ d = 3 ∨ d = 4 ∨ d = 5
          ∨ d = 6 ∨ d = 7 ∨ d = 8 ∨ d = 9)%N as Hcases by lia.
  by destruct Hcases as [->|[->|[->|[->|[->|[->|[->|[->|[->| ->]]]]]]]]].
Qed.

Lemma append_assoc (a b c : string) : (a +:+ b) +:+ c = a +:+ (b +:+ c).
Proof. induction a as [|x a IH]; [done|]. rewrite !append_cons. by f_equal. Qed.

Lemma append_nil_r (a : string) : a +:+ "" = a.
Proof. induction a as [|x a IH]; [done|]. rewrite append_cons. by f_equal. Qed.

Lemma length_append (a b : string) :
  String.length (a +:+ b) = (String.length a + String.length b)%nat.
Proof. induction a as [|x a IH]; simpl; [done | by f_equal]. Qed.

(** The digits [pretty_N_go] puts in front of its accumulator read back as
    the number. *)
Lemma pretty_N_go_digits (x : N) (s : string) :
  exists ds : string,
    pretty_N_go x s = ds +:+ s /\
    all_digits ds = true /\
    ((0 < x)%N -> ds <> "") /\
    forall acc : Z,
      digits_value acc ds = Some (acc * 10 ^ Z.of_nat (String.length ds) + Z.of_N x).
Proof.
  revert s. induction (N.lt_wf_0 x) as [x _ IH]; intros s.
  destruct (decide (x = 0%N)) as [->|Hx].
  { exists "". rewrite pretty_N_go_0. repeat split; [lia|].
    intros acc; simpl. f_equal. lia. }
  assert (0 < x)%N as Hpos by lia.
  rewrite pretty_N_go_step by done.
  set (c := pretty_N_char (x `mod` 10)).
  destruct (IH (x `div` 10)%N (N.div_lt x 10 Hpos eq_refl) (String c s))
    as (ds & Heq & Hall & _ & Hval).
  exists (ds +:+ String c "").
  split; [by rewrite Heq, append_assoc|].
  split.
  { rewrite all_digits_app, Hall. simpl. unfold c.
    by rewrite pretty_N_char_digit. }
  split; [by destruct ds|].
  intros acc. rewrite digits_value_app, Hval. simpl. unfold c.
  rewrite pretty_N_char_digit, pretty_N_char_value by (apply N.mod_lt; lia).
  f_equal. rewrite length_append. simpl.
  rewrite Nat2Z.inj_add, Z.pow_add_r by lia.
  change (10 ^ Z.of_nat 1) with 10.
  pose proof (N.div_mod x 10 ltac:(lia)) as Hdm.
  rewrite N2Z.inj_div, N2Z.inj_mod. change (Z.of_N 10) with 10.
  pose proof (Z.div_mod (Z.of_N x) 10 ltac:(lia)). lia.
Qed.

(** The decimal text of a non-negative integer is a non-empty run of digits
    whose value is that integer. *)
Lemma pretty_nonneg_digits (i : Z) :
  0 <= i ->
  all_digits (pretty i) = true /\ pretty i <> "" /\ digits_value 0 (pretty i) = Some i.
Proof.
  intros Hi. destruct i as [|p|p]; [done| |lia].
  unfold pretty, pretty_Z, pretty, pretty_positive, pretty, pretty_N.
  rewrite decide_False by done.
  destruct (pretty_N_go_digits (N.pos p) "") as (ds & Heq & Hall & Hne & Hval).
  rewrite Heq, append_nil_r. repeat split; [done | by apply Hne |].
  by rewrite Hval.
Qed.

(** The decimal text of a negative integer starts with a minus sign. *)
Lemma pretty_neg (i : Z) : i < 0 -> exists s : string, pretty i = "-" +:+ s.
Proof.
  intros Hi. destruct i as [|p|p]; [lia|lia|].
  unfold pretty, pretty_Z. simpl. eauto.
Qed.

(** ** Routing of the paths [/accounts] and [/accounts/{i}] *)

Lemma match_int_conv (i : Z) :
  0 <= i -> match_pieces [IntConv] (pretty i) = Some [i].
Proof.
  intros Hi. destruct (pretty_nonneg_digits i Hi) as (Hall & Hne & Hval).
  unfold match_pieces. rewrite (span_digits_all _ Hall).
  cbv beta iota. destruct (pretty i) as [|c s]; [done|].
  by rewrite Hval.
Qed.

(** Under [/accounts/] only the two [<int:id>] rules can match. *)
Lemma matching_rules_accounts_slash (s : string) :
  matching_rules url_map ("/accounts/" +:+ s) =
  match match_pieces [IntConv] s with
  | Some args =>
      [ (mkRule [Lit "/accounts/"; IntConv] [GET] (View1 read_account), args);
        (mkRule [Lit "/accounts/"; IntConv] [PUT] (View1 update_products), args) ]
  | None => []
  end.
Proof.
  assert (match_pieces [Lit "/health"] ("/accounts/" +:+ s) = None) as H1
    by reflexivity.
  assert (match_pieces [Lit "/"] ("/accounts/" +:+ s) = None) as H2
    by reflexivity.
  assert (match_pieces [Lit "/accounts"] ("/accounts/" +:+ s) = None) as H3
    by reflexivity.
  assert (match_pieces [Lit "/accounts/"; IntConv] ("/accounts/" +:+ s)
          = match_pieces [IntConv] s) as H4 by reflexivity.
  unfold url_map. cbn [matching_rules rule_pieces].
  rewrite H1, H2, H3, H4.
  by destruct (match_pieces [IntConv] s).
Qed.

Lemma matching_rules_account_url (i : Z) :
  0 <= i ->
  matching_rules url_map (account_url i) =
  [ (mkRule [Lit "/accounts/"; IntConv] [GET] (View1 read_account), [i]);
    (mkRule [Lit "/accounts/"; IntConv] [PUT] (View1 update_products), [i]) ].
Proof.
  intros Hi. unfold account_url.
  by rewrite matching_rules_accounts_slash, match_int_conv.
Qed.

(** A negative id is no match for [<int:id>]: no rule takes the path. *)
Lemma matching_rules_account_url_neg (i : Z) :
  i < 0 -> matching_rules url_map (account_url i) = [].
Proof.
  intros Hi. unfold account_url.
  destruct (pretty_neg i Hi) as [s ->].
  by rewrite matching_rules_accounts_slash.
Qed.

Lemma matching_rules_accounts :
  matching_rules url_map "/accounts" =
  [ (mkRule [Lit "/accounts"] [POST] (View0 create_accounts), []) ].
Proof. reflexivity. Qed.

(** What the dispatch does with the two account paths, method by method. *)
Lemma dispatch_account_url (i : Z) (req : request) :
  0 <= i ->
  req_path req = account_url i ->
  dispatch_request req =
  match req_method req with
  | GET => read_account i req
  | PUT => update_products i req
  | _ => abort status.HTTP_405_METHOD_NOT_ALLOWED
           "The method is not allowed for the requested URL."
  end.
Proof.
  intros Hi Hpath. unfold dispatch_request.
  rewrite Hpath, matching_rules_account_url by done.
  by destruct (req_method req).
Qed.

Lemma dispatch_account_url_neg (i : Z) (req : request) :
  i < 0 ->
  req_path req = account_url i ->
  dispatch_request req =
  abort status.HTTP_404_NOT_FOUND not_found_description.
Proof.
  intros Hi Hpath. unfold dispatch_request.
  by rewrite Hpath, matching_rules_account_url_neg.
Qed.

Lemma dispatch_accounts (req : request) :
  req_path req = "/accounts" ->
  dispatch_request req =
  match req_method req with
  | POST => create_accounts req
  | _ => abort status.HTTP_405_METHOD_NOT_ALLOWED
           "The method is not allowed for the requested URL."
  end.
Proof.
  intros Hpath. unfold dispatch_request.
  rewrite Hpath, matching_rules_accounts.
  by destruct (req_method req).
Qed.

(** ** The content-type check *)

Lemma check_content_type_ok (req : request) :
  headers_get "Content-Type" (req_headers req) = Some "application/json" ->
  check_content_type "application/json" req = mret tt.
Proof. intros H. unfold check_content_type. by rewrite H. Qed.

Lemma check_content_type_mismatch (media_type : string) (req : request) :
  headers_get "Content-Type" (req_headers req) <> Some media_type ->
  check_content_type media_type req =
  abort status.HTTP_415_UNSUPPORTED_MEDIA_TYPE ("Content-Type must be " +:+ media_type).
Proof.
  intros H. unfold check_content_type.
  by rewrite (bool_decide_eq_false_2 _ H), andb_false_r.
Qed.

(** ** The unimplemented routes *)

(** C1: a GET on [/accounts] is answered 200 with all the Accounts. The code
    has no view for it: the only rule on [/accounts] takes POST, so whatever
    the store holds the answer is 405 and carries no Account. *)
Theorem list_accounts_method_not_allowed
  (hs : list (string * string)) (body : option json) (w : world) :
  serve (mkRequest GET "/accounts" hs body) w =
  (mkResponse 405 []
     (Some (JObj [("message", JStr "The method is not allowed for the requested URL.")])),
   w).
Proof. unfold serve. by rewrite dispatch_accounts. Qed.

(** C2: a DELETE on [/accounts/{i}] is answered 204 with an empty body. The
    code has no view for it: the rules on that path take GET and PUT, so the
    answer is 405 (404 when [i] is negative, which no rule matches), never
    204, and the store is as it was. *)
Theorem delete_account_method_not_allowed
  (i : Z) (hs : list (string * string)) (body : option json) (w : world) :
  let '(resp, w') := serve (mkRequest DELETE (account_url i) hs body) w in
  status_code resp = (if bool_decide (0 <= i) then 405 else 404) /\
  status_code resp <> status.HTTP_204_NO_CONTENT /\
  resp_body resp <> None /\
  w' = w.
Proof.
  unfold serve. case_bool_decide as Hi.
  - by rewrite (dispatch_account_url i) by done.
  - by rewrite (dispatch_account_url_neg i) by (done || lia).
Qed.

(** ** Content type before everything else *)

(** C5: a POST on [/accounts] whose Content-Type is absent or is not exactly
    [application/json] is answered 415 with a message naming the expected
    type, whatever the body is; the world is untouched, so the body was not
    parsed and the persistence layer was not called. *)
Theorem create_accounts_unsupported_media_type (req : request) (w : world) :
  req_method req = POST ->
  req_path req = "/accounts" ->
  headers_get "Content-Type" (req_headers req) <> Some "application/json" ->
  serve req w =
  (mkResponse status.HTTP_415_UNSUPPORTED_MEDIA_TYPE []
     (Some (JObj [("message", JStr "Content-Type must be application/json")])),
   w).
Proof.
  intros Hm Hp Hct. unfold serve.
  rewrite dispatch_accounts, Hm by done.
  unfold create_accounts. rewrite check_content_type_mismatch by done.
  reflexivity.
Qed.

Lemma create_accounts_unsupported_media_type_witness :
  serve (mkRequest POST "/accounts" [("Content-Type", "text/html")]
           (Some (JObj [("name", JStr "n"); ("email", JStr "e"); ("address", JStr "a")])))
        (mkWorld (mkStore ∅ 1) (mkDate 2024 1 1) []) =
  (mkResponse 415 []
     (Some (JObj [("message", JStr "Content-Type must be application/json")])),
   mkWorld (mkStore ∅ 1) (mkDate 2024 1 1) []).
Proof.
  apply create_accounts_unsupported_media_type; [reflexivity | reflexivity |].
  simpl. discriminate.
Defined.

(** C8, as amended: a PUT on [/accounts/{i}], [i] not negative, whose
    Content-Type is absent or is not [application/json] is answered 415 in
    every store, so also when no Account has id [i]; the lookup is not even
    made (no call is logged). *)
Theorem update_unsupported_media_type_first (i : Z) (req : request) (w : world) :
  0 <= i ->
  req_method req = PUT ->
  req_path req = account_url i ->
  headers_get "Content-Type" (req_headers req) <> Some "application/json" ->
  serve req w =
  (mkResponse status.HTTP_415_UNSUPPORTED_MEDIA_TYPE []
     (Some (JObj [("message", JStr "Content-Type must be application/json")])),
   w).
Proof.
  intros Hi Hm Hp Hct. unfold serve.
  rewrite (dispatch_account_url i), Hm by done.
  unfold update_products. rewrite check_content_type_mismatch by done.
  reflexivity.
Qed.

Lemma update_unsupported_media_type_first_witness :
  rows (mkStore ∅ 1) !! 7 = None /\
  serve (mkRequest PUT (account_url 7) [] None)
        (mkWorld (mkStore ∅ 1) (mkDate 2024 1 1) []) =
  (mkResponse 415 []
     (Some (JObj [("message", JStr "Content-Type must be application/json")])),
   mkWorld (mkStore ∅ 1) (mkDate 2024 1 1) []).
Proof.
  split; [reflexivity|].
  apply (update_unsupported_media_type_first 7); [lia | reflexivity | reflexivity |].
  simpl. discriminate.
Defined.

(** C8 fails as stated for a negative id: [/accounts/-1] matches no rule, so
    a PUT on it without Content-Type never reaches [check_content_type] and
    is answered by the router's 404, not by a 415. *)
Lemma update_negative_id_not_unsupported_media_type :
  let req := mkRequest PUT (account_url (-1)) [] None in
  let w := mkWorld (mkStore ∅ 1) (mkDate 2024 1 1) [] in
  headers_get "Content-Type" (req_headers req) = None /\
  rows (db w) !! (-1) = None /\
  status_code (serve req w).1 = 404 /\
  status_code (serve req w).1 <> status.HTTP_415_UNSUPPORTED_MEDIA_TYPE.
Proof. repeat split. vm_compute. discriminate. Qed.

(** ** Not found *)

(** C4: a PUT on [/accounts/{i}] with Content-Type [application/json], when
    no Account has id [i], is answered 404; the store is as it was, and the
    request made no mutating call to the persistence layer. *)
Theorem update_not_found_leaves_store (i : Z) (req : request) (w : world) :
  req_method req = PUT ->
  req_path req = account_url i ->
  headers_get "Content-Type" (req_headers req) = Some "application/json" ->
  rows (db w) !! i = None ->
  let '(resp, w') := serve req w in
  status_code resp = status.HTTP_404_NOT_FOUND /\
  db w' = db w /\
  exists cs : list call, calls w' = (calls w ++ cs)%list /\ existsb mutating cs = false.
Proof.
  intros Hm Hp Hct Hrow. unfold serve.
  destruct (decide (0 <= i)) as [Hi|Hi].
  - rewrite (dispatch_account_url i), Hm by done.
    unfold update_products. rewrite check_content_type_ok by done.
    run. rewrite Hrow. simpl.
    repeat split. by exists [CallFind i].
  - rewrite (dispatch_account_url_neg i) by (done || lia).
    run. repeat split. exists []. by rewrite app_nil_r.
Qed.

Lemma update_not_found_leaves_store_witness :
  let '(resp, w') :=
    serve (mkRequest PUT (account_url 0) [("Content-Type", "application/json")]
             (Some (JObj [("name", JStr "n"); ("email", JStr "e"); ("address", JStr "a")])))
          (mkWorld (mkStore ∅ 1) (mkDate 2024 1 1) []) in
  status_code resp = 404 /\
  db w' = mkStore ∅ 1 /\
  exists cs : list call, calls w' = ([] ++ cs)%list /\ existsb mutating cs = false.
Proof.
  apply (update_not_found_leaves_store 0
           (mkRequest PUT (account_url 0) [("Content-Type", "application/json")]
             (Some (JObj [("name", JStr "n"); ("email", JStr "e"); ("address", JStr "a")])))
           (mkWorld (mkStore ∅ 1) (mkDate 2024 1 1) [])); reflexivity.
Defined.

(** With an id the route takes, the 404 comes from the handler itself, right
    after the lookup: the body has not been parsed. *)
Lemma update_not_found_short_circuits (i : Z) (req : request) (w : world) :
  0 <= i ->
  req_method req = PUT ->
  req_path req = account_url i ->
  headers_get "Content-Type" (req_headers req) = Some "application/json" ->
  rows (db w) !! i = None ->
  serve req w =
  (mkResponse status.HTTP_404_NOT_FOUND []
     (Some (JObj [("message", JStr (not_found_message i))])),
   mkWorld (db w) (today w) (calls w ++ [CallFind i])).
Proof.
  intros Hi Hm Hp Hct Hrow. unfold serve.
  rewrite (dispatch_account_url i), Hm by done.
  unfold update_products. rewrite check_content_type_ok by done.
  run. by rewrite Hrow.
Qed.

(** C6, as amended: for every non-negative id [i] that no Account has, a GET
    on [/accounts/{i}] is answered 404 with the JSON body whose message is
    "Account with id '<i>' was not found.", [i] in decimal; the store is
    only looked up. *)
Theorem read_account_not_found (i : Z) (hs : list (string * string))
    (body : option json) (w : world) :
  0 <= i ->
  rows (db w) !! i = None ->
  serve (mkRequest GET (account_url i) hs body) w =
  (mkResponse status.HTTP_404_NOT_FOUND []
     (Some (JObj [("message",
                   JStr ("Account with id '" +:+ pretty i +:+ "' was not found."))])),
   mkWorld (db w) (today w) (calls w ++ [CallFind i])).
Proof.
  intros Hi Hrow. unfold serve.
  rewrite (dispatch_account_url i) by done. simpl req_method. cbv iota.
  run. by rewrite Hrow.
Qed.

Lemma read_account_not_found_witness :
  serve (mkRequest GET "/accounts/0" [] None)
        (mkWorld (mkStore ∅ 1) (mkDate 2024 1 1) []) =
  (mkResponse 404 []
     (Some (JObj [("message", JStr "Account with id '0' was not found.")])),
   mkWorld (mkStore ∅ 1) (mkDate 2024 1 1) [CallFind 0]).
Proof.
  apply (read_account_not_found 0 [] None
           (mkWorld (mkStore ∅ 1) (mkDate 2024 1 1) [])); [lia | reflexivity].
Defined.

(** C6 fails as stated for a negative integer: the [<int:id>] converter does
    not take a minus sign, so [/accounts/-1] reaches no view; the answer is
    still 404, but its message is the router's and does not name the id. *)
Lemma read_account_negative_id_message :
  rows (mkStore ∅ 1) !! (-1) = None /\
  status_code (serve (mkRequest GET (account_url (-1)) [] None)
                 (mkWorld (mkStore ∅ 1) (mkDate 2024 1 1) [])).1 = 404 /\
  resp_body (serve (mkRequest GET (account_url (-1)) [] None)
               (mkWorld (mkStore ∅ 1) (mkDate 2024 1 1) [])).1
  <> Some (JObj [("message", JStr "Account with id '-1' was not found.")]).
Proof. split; [reflexivity|]. split; [reflexivity|]. vm_compute. discriminate. Qed.

(** ** Well-formed Account payloads *)

Lemma required_string_given (key : string) (kvs : list (string * json)) (s : string) :
  dict_get key kvs = Some (JStr s) -> required_string key kvs = inr s.
Proof. intros H. unfold required_string. by rewrite H. Qed.

Lemma optional_string_given (kvs : list (string * json)) (p : option string) :
  phone_given kvs p -> optional_string "phone_number" kvs = inr p.
Proof.
  unfold phone_given, optional_string. destruct p as [s|].
  - by intros ->.
  - by intros [-> | ->].
Qed.

Lemma optional_date_given (now : date) (kvs : list (string * json)) (d : date) :
  date_given now kvs d -> optional_date now "date_joined" kvs = inr d.
Proof.
  unfold date_given, optional_date.
  intros [(s & -> & ->) | [[-> | ->] ->]]; done.
Qed.

Lemma populate_payload (now : date) (self : Account.t) (kvs : list (string * json))
    (n e a : string) (p : option string) (d : date) :
  account_payload now kvs n e a p d ->
  populate now self (JObj kvs) =
  inr (Account.mk (Account.id self) (Some n) (Some e) (Some a) p (Some d)).
Proof.
  intros (Hn & He & Ha & Hp & Hd). unfold populate.
  rewrite (required_string_given _ _ _ Hn), (required_string_given _ _ _ He),
    (required_string_given _ _ _ Ha), (optional_string_given _ _ Hp),
    (optional_date_given _ _ _ Hd).
  reflexivity.
Qed.

Lemma required_string_error (key : string) (kvs : list (string * json)) (e : exn) :
  required_string key kvs = inl e -> is_validation_error e.
Proof.
  unfold required_string, bad_data, is_validation_error.
  destruct (dict_get key kvs) as [[]|]; intros [= <-]; eauto.
Qed.

Lemma optional_string_error (key : string) (kvs : list (string * json)) (e : exn) :
  optional_string key kvs = inl e -> is_validation_error e.
Proof.
  unfold optional_string, bad_data, is_validation_error.
  destruct (dict_get key kvs) as [[]|]; intros [= <-]; eauto.
Qed.

Lemma optional_date_error (now : date) (key : string) (kvs : list (string * json))
    (e : exn) :
  optional_date now key kvs = inl e -> is_validation_error e.
Proof.
  unfold optional_date, bad_data, is_validation_error.
  destruct (dict_get key kvs) as [[| | |s| |]|]; try (intros [= <-]; eauto).
  destruct (date_fromisoformat s); intros [= <-]; eauto.
Qed.

(** [populate] fails with validation errors only. *)
Lemma populate_error (now : date) (self : Account.t) (data : json) (e : exn) :
  populate now self data = inl e -> is_validation_error e.
Proof.
  destruct data as [| | | | |kvs];
    try (intros [= <-]; unfold bad_data, is_validation_error; eauto).
  unfold populate.
  destruct (required_string "name" kvs) as [e1|n] eqn:H1.
  { intros [= <-]. eapply required_string_error, H1. }
  destruct (required_string "email" kvs) as [e2|m] eqn:H2.
  { intros [= <-]. eapply required_string_error, H2. }
  destruct (required_string "address" kvs) as [e3|a] eqn:H3.
  { intros [= <-]. eapply required_string_error, H3. }
  destruct (optional_string "phone_number" kvs) as [e4|p] eqn:H4.
  { intros [= <-]. eapply optional_string_error, H4. }
  destruct (optional_date now "date_joined" kvs) as [e5|d] eqn:H5.
  { intros [= <-]. eapply optional_date_error, H5. }
  intros [=].
Qed.

(** ** Creating an Account *)

(** C7: a POST on [/accounts] with Content-Type [application/json] and a
    valid Account payload is answered 201 with a [Location] header and the
    whole created Account as JSON, its generated [id] and its [date_joined]
    included; the row is in the table under that id. *)
Theorem create_accounts_created (req : request) (w : world)
    (kvs : list (string * json)) (n e a : string) (p : option string) (d : date) :
  req_method req = POST ->
  req_path req = "/accounts" ->
  headers_get "Content-Type" (req_headers req) = Some "application/json" ->
  req_json req = Some (JObj kvs) ->
  account_payload (today w) kvs n e a p d ->
  let new_id := next_id (db w) in
  let created := Account.mk (Some new_id) (Some n) (Some e) (Some a) p (Some d) in
  serve req w =
  (mkResponse status.HTTP_201_CREATED [("Location", "/")]
     (Some (JObj [ ("id", JNum new_id);
                   ("name", JStr n);
                   ("email", JStr e);
                   ("address", JStr a);
                   ("phone_number", json_of_option JStr p);
                   ("date_joined", JStr (date_isoformat d)) ])),
   mkWorld (mkStore (<[new_id := created]> (rows (db w))) (new_id + 1))
     (today w)
     (calls w ++ [CallGetJson; CallDeserialize; CallCreate; CallSerialize])).
Proof.
  intros Hm Hp Hct Hjson Hpay. unfold serve.
  rewrite dispatch_accounts, Hm by done.
  unfold create_accounts. rewrite check_content_type_ok by done.
  run. rewrite Hjson. simpl.
  rewrite (populate_payload _ _ _ _ _ _ _ _ Hpay). simpl.
  by rewrite <- !app_assoc.
Qed.

Lemma create_accounts_created_witness :
  serve (mkRequest POST "/accounts" [("Content-Type", "application/json")]
           (Some (JObj [("name", JStr "Ada"); ("email", JStr "ada@example.org");
                        ("address", JStr "12 Main St")])))
        (mkWorld (mkStore ∅ 1) (mkDate 2024 2 29) []) =
  (mkResponse 201 [("Location", "/")]
     (Some (JObj [ ("id", JNum 1);
                   ("name", JStr "Ada");
                   ("email", JStr "ada@example.org");
                   ("address", JStr "12 Main St");
                   ("phone_number", JNull);
                   ("date_joined", JStr "2024-02-29") ])),
   mkWorld
     (mkStore
        (<[1 := Account.mk (Some 1) (Some "Ada") (Some "ada@example.org")
                  (Some "12 Main St") None (Some (mkDate 2024 2 29))]> ∅) 2)
     (mkDate 2024 2 29)
     [CallGetJson; CallDeserialize; CallCreate; CallSerialize]).
Proof.
  apply (create_accounts_created
           (mkRequest POST "/accounts" [("Content-Type", "application/json")]
              (Some (JObj [("name", JStr "Ada"); ("email", JStr "ada@example.org");
                           ("address", JStr "12 Main St")])))
           (mkWorld (mkStore ∅ 1) (mkDate 2024 2 29) [])
           [("name", JStr "Ada"); ("email", JStr "ada@example.org");
            ("address", JStr "12 Main St")]
           "Ada" "ada@example.org" "12 Main St" None (mkDate 2024 2 29));
    try reflexivity.
  repeat split; try reflexivity.
  - simpl. by left.
  - right. split; [by left | reflexivity].
Defined.

(** What [create_accounts] answers is a 415, a 400, or the 201 with its
    [Location] set to ["/"]. *)
Lemma create_accounts_outcomes (req : request) (w : world) :
  let '(r, _) := create_accounts req w in
  match r with
  | inl e => e = HTTPException status.HTTP_415_UNSUPPORTED_MEDIA_TYPE
                   "Content-Type must be application/json"
             \/ (exists msg, e = HTTPException status.HTTP_400_BAD_REQUEST msg)
             \/ is_validation_error e
  | inr resp => status_code resp = status.HTTP_201_CREATED /\
                resp_headers resp = [("Location", "/")]
  end.
Proof.
  unfold create_accounts.
  destruct (decide (headers_get "Content-Type" (req_headers req)
                    = Some "application/json")) as [Hct|Hct].
  - rewrite check_content_type_ok by done. run.
    destruct (req_json req) as [data|]; simpl; [|right; left; eauto].
    destruct (populate (today w) Account.blank data) as [e|acc] eqn:Hpop; simpl.
    + right; right. eapply populate_error, Hpop.
    + done.
  - rewrite check_content_type_mismatch by done. run. by left.
Qed.

(** C10: whenever a POST on [/accounts] is answered 201, the [Location]
    header of the answer is the constant ["/"]; it is not the URL of any
    Account. *)
Theorem create_accounts_location_root (req : request) (w : world) :
  req_method req = POST ->
  req_path req = "/accounts" ->
  status_code (serve req w).1 = status.HTTP_201_CREATED ->
  resp_headers (serve req w).1 = [("Location", "/")] /\
  headers_get "Location" (resp_headers (serve req w).1) = Some "/" /\
  forall i : Z, headers_get "Location" (resp_headers (serve req w).1)
                <> Some (account_url i).
Proof.
  intros Hm Hp. unfold serve.
  rewrite dispatch_accounts, Hm by done.
  pose proof (create_accounts_outcomes req w) as Hout.
  destruct (create_accounts req w) as [[e|resp] w']; simpl.
  - destruct Hout as [-> | [[msg ->] | [msg ->]]]; simpl; intros [=].
  - destruct Hout as [_ ->]. intros _. repeat split. intros i. discriminate.
Qed.

Lemma create_accounts_location_root_witness :
  let req := mkRequest POST "/accounts" [("Content-Type", "application/json")]
               (Some (JObj [("name", JStr "Ada"); ("email", JStr "ada@example.org");
                            ("address", JStr "12 Main St")])) in
  let w := mkWorld (mkStore ∅ 1) (mkDate 2024 2 29) [] in
  resp_headers (serve req w).1 = [("Location", "/")] /\
  headers_get "Location" (resp_headers (serve req w).1) = Some "/" /\
  forall i : Z, headers_get "Location" (resp_headers (serve req w).1)
                <> Some (account_url i).
Proof.
  apply create_accounts_location_root; reflexivity.
Defined.

(** ** Updating an Account *)

(** C9: a PUT on [/accounts/{i}] with Content-Type [application/json], for
    an Account that exists, whose body fails deserialization, is not
    answered 200 (it is a 400); [update()] is never called and the stored
    rows are as they were. *)
Theorem update_bad_body_not_persisted (i : Z) (req : request) (w : world)
    (row : Account.t) (data : json) (e : exn) :
  0 <= i ->
  req_method req = PUT ->
  req_path req = account_url i ->
  headers_get "Content-Type" (req_headers req) = Some "application/json" ->
  rows (db w) !! i = Some row ->
  req_json req = Some data ->
  populate (today w) row data = inl e ->
  let '(resp, w') := serve req w in
  status_code resp = status.HTTP_400_BAD_REQUEST /\
  status_code resp <> status.HTTP_200_OK /\
  db w' = db w /\
  calls w' = (calls w ++ [CallFind i; CallGetJson; CallDeserialize])%list /\
  CallUpdate ∉ [CallFind i; CallGetJson; CallDeserialize].
Proof.
  intros Hi Hm Hp Hct Hrow Hjson Hpop. unfold serve.
  rewrite (dispatch_account_url i), Hm by done.
  unfold update_products. rewrite check_content_type_ok by done.
  run. rewrite Hrow. simpl. rewrite Hjson. simpl. rewrite Hpop. simpl.
  destruct (populate_error _ _ _ _ Hpop) as [msg ->]. simpl.
  repeat split; [done | by rewrite <- !app_assoc |].
  intros Hin. rewrite !elem_of_cons, elem_of_nil in Hin.
  destruct Hin as [?|[?|[?|[]]]]; discriminate.
Qed.

Lemma update_bad_body_not_persisted_witness :
  let row := Account.mk (Some 1) (Some "Ada") (Some "ada@example.org")
               (Some "12 Main St") (Some "555-0100") (Some (mkDate 2020 1 1)) in
  let w := mkWorld (mkStore {[ 1 := row ]} 2) (mkDate 2024 2 29) [] in
  let req := mkRequest PUT (account_url 1) [("Content-Type", "application/json")]
               (Some (JObj [("name", JStr "not enough data")])) in
  let '(resp, w') := serve req w in
  status_code resp = 400 /\
  status_code resp <> 200 /\
  db w' = db w /\
  calls w' = ([] ++ [CallFind 1; CallGetJson; CallDeserialize])%list /\
  CallUpdate ∉ [CallFind 1; CallGetJson; CallDeserialize].
Proof.
  apply (update_bad_body_not_persisted 1
           (mkRequest PUT (account_url 1) [("Content-Type", "application/json")]
              (Some (JObj [("name", JStr "not enough data")])))
           (mkWorld
              (mkStore {[ 1 := Account.mk (Some 1) (Some "Ada") (Some "ada@example.org")
                                 (Some "12 Main St") (Some "555-0100")
                                 (Some (mkDate 2020 1 1)) ]} 2)
              (mkDate 2024 2 29) [])
           (Account.mk (Some 1) (Some "Ada") (Some "ada@example.org")
              (Some "12 Main St") (Some "555-0100") (Some (mkDate 2020 1 1)))
           (JObj [("name", JStr "not enough data")])
           (DataValidationError "Invalid Account: missing email"));
    [lia | reflexivity..].
Defined.

(** With the deserialization modelled here, a PUT on [/accounts/{i}] with
    Content-Type [application/json] and a valid Account payload, for an
    Account that exists, is answered 200 with the updated Account as JSON
    and stores under [i] the row made of the payload: [name], [email] and
    [address] as submitted, [phone_number] and [date_joined] as the payload
    gives them. The row's [id] is still [i], and the other rows are as they
    were. *)
Theorem update_replaces_mutable_fields (i : Z) (req : request) (w : world)
    (row : Account.t) (kvs : list (string * json))
    (n e a : string) (p : option string) (d : date) :
  0 <= i ->
  req_method req = PUT ->
  req_path req = account_url i ->
  headers_get "Content-Type" (req_headers req) = Some "application/json" ->
  rows (db w) !! i = Some row ->
  req_json req = Some (JObj kvs) ->
  account_payload (today w) kvs n e a p d ->
  let updated := Account.mk (Some i) (Some n) (Some e) (Some a) p (Some d) in
  let '(resp, w') := serve req w in
  resp = mkResponse status.HTTP_200_OK [] (Some (Account_to_dict updated)) /\
  rows (db w') !! i = Some updated /\
  Account.id updated = Some i /\
  (forall j : Z, j <> i -> rows (db w') !! j = rows (db w) !! j) /\
  next_id (db w') = next_id (db w) /\
  calls w' =
    (calls w ++ [CallFind i; CallGetJson; CallDeserialize; CallUpdate; CallSerialize])%list.
Proof.
  intros Hi Hm Hp Hct Hrow Hjson Hpay. unfold serve.
  rewrite (dispatch_account_url i), Hm by done.
  unfold update_products. rewrite check_content_type_ok by done.
  run. rewrite Hrow. simpl. rewrite Hjson. simpl.
  rewrite (populate_payload _ _ _ _ _ _ _ _ Hpay). simpl.
  rewrite Hrow. simpl.
  repeat split.
  - apply lookup_insert_eq.
  - intros j Hj. by apply lookup_insert_ne.
  - by rewrite <- !app_assoc.
Qed.

Lemma update_replaces_mutable_fields_witness :
  let row := Account.mk (Some 1) (Some "Ada") (Some "ada@example.org")
               (Some "12 Main St") (Some "555-0100") (Some (mkDate 2020 1 1)) in
  let w := mkWorld (mkStore {[ 1 := row ]} 2) (mkDate 2024 2 29) [] in
  let req := mkRequest PUT (account_url 1) [("Content-Type", "application/json")]
               (Some (JObj [("name", JStr "John Doe"); ("email", JStr "ada@example.org");
                            ("address", JStr "12 Main St");
                            ("phone_number", JStr "555-0199");
                            ("date_joined", JStr "2021-03-04")])) in
  let updated := Account.mk (Some 1) (Some "John Doe") (Some "ada@example.org")
                   (Some "12 Main St") (Some "555-0199") (Some (mkDate 2021 3 4)) in
  let '(resp, w') := serve req w in
  resp = mkResponse 200 [] (Some (Account_to_dict updated)) /\
  rows (db w') !! 1 = Some updated /\
  Account.id updated = Some 1 /\
  (forall j : Z, j <> 1 -> rows (db w') !! j = rows (db w) !! j) /\
  next_id (db w') = next_id (db w) /\
  calls w' =
    ([] ++ [CallFind 1; CallGetJson; CallDeserialize; CallUpdate; CallSerialize])%list.
Proof.
  apply (update_replaces_mutable_fields 1
           (mkRequest PUT (account_url 1) [("Content-Type", "application/json")]
              (Some (JObj [("name", JStr "John Doe"); ("email", JStr "ada@example.org");
                           ("address", JStr "12 Main St");
                           ("phone_number", JStr "555-0199");
                           ("date_joined", JStr "2021-03-04")])))
           (mkWorld
              (mkStore {[ 1 := Account.mk (Some 1) (Some "Ada") (Some "ada@example.org")
                                 (Some "12 Main St") (Some "555-0100")
                                 (Some (mkDate 2020 1 1)) ]} 2)
              (mkDate 2024 2 29) [])
           (Account.mk (Some 1) (Some "Ada") (Some "ada@example.org")
              (Some "12 Main St") (Some "555-0100") (Some (mkDate 2020 1 1)))
           [("name", JStr "John Doe"); ("email", JStr "ada@example.org");
            ("address", JStr "12 Main St"); ("phone_number", JStr "555-0199");
            ("date_joined", JStr "2021-03-04")]
           "John Doe" "ada@example.org" "12 Main St" (Some "555-0199")
           (mkDate 2021 3 4));
    [lia | reflexivity.. |].
  repeat split; try reflexivity.
  left. exists "2021-03-04". split; reflexivity.
Defined.


(** ** The table stays well-formed *)

Lemma wf_store_fresh (s : Store) : wf_store s -> rows s !! next_id s = None.
Proof.
  intros Hwf. destruct (rows s !! next_id s) as [row|] eqn:Hrow; [|done].
  destruct (Hwf _ _ Hrow) as [? _]. lia.
Qed.

Lemma create_accounts_wf (req : request) (w : world) :
  1 <= next_id (db w) -> wf_store (db w) -> wf_store (db (create_accounts req w).2).
Proof.
  intros Hnext Hwf. unfold create_accounts.
  destruct (decide (headers_get "Content-Type" (req_headers req)
                    = Some "application/json")) as [Hct|Hct].
  - rewrite check_content_type_ok by done. run.
    destruct (req_json req) as [data|]; simpl; [|done].
    destruct (populate (today w) Account.blank data) as [e|acc] eqn:Hpop; simpl;
      [done|].
    intros k row. simpl. rewrite lookup_insert.
    case_decide as Hk.
    + intros [= <-]. subst k. simpl. split; [lia | done].
    + intros Hrow. destruct (Hwf _ _ Hrow). split; [lia | done].
  - rewrite check_content_type_mismatch by done. by run.
Qed.

Lemma read_account_wf (i : Z) (req : request) (w : world) :
  wf_store (db w) -> wf_store (db (read_account i req w).2).
Proof. intros Hwf. run. by destruct (rows (db w) !! i). Qed.

Lemma update_products_wf (i : Z) (req : request) (w : world) :
  wf_store (db w) -> wf_store (db (update_products i req w).2).
Proof.
  intros Hwf. unfold update_products.
  destruct (decide (headers_get "Content-Type" (req_headers req)
                    = Some "application/json")) as [Hct|Hct].
  - rewrite check_content_type_ok by done. run.
    destruct (rows (db w) !! i) as [row|] eqn:Hrow; simpl; [|done].
    destruct (req_json req) as [data|]; simpl; [|done].
    destruct (populate (today w) row data) as [e|acc] eqn:Hpop; simpl; [done|].
    rewrite Hrow. simpl.
    intros k row'. simpl. rewrite lookup_insert.
    case_decide as Hk.
    + intros [= <-]. subst k. simpl. destruct (Hwf _ _ Hrow). done.
    + apply Hwf.
  - rewrite check_content_type_mismatch by done. by run.
Qed.

Lemma first_allowing_elem (m : method) (cands : list (rule * list Z))
    (r : rule) (args : list Z) :
  first_allowing m cands = Some (r, args) -> (r, args) ∈ cands.
Proof.
  induction cands as [|[r' args'] cands IH]; simpl; [done|].
  case_bool_decide.
  - intros [= -> ->]. rewrite elem_of_cons. by left.
  - intros H'. rewrite elem_of_cons. right. by apply IH.
Qed.

Lemma matching_rules_elem (rs : list rule) (path : string)
    (r : rule) (args : list Z) :
  (r, args) ∈ matching_rules rs path -> r ∈ rs.
Proof.
  induction rs as [|r' rs IH]; simpl; [by rewrite elem_of_nil|].
  destruct (match_pieces (rule_pieces r') path).
  - rewrite !elem_of_cons. intros [[= -> _]|Hin]; [by left | right; by apply IH].
  - rewrite elem_of_cons. right. by apply IH.
Qed.

(** Serving any request keeps the table well-formed. *)
Lemma serve_wf (req : request) (w : world) :
  1 <= next_id (db w) -> wf_store (db w) -> wf_store (db (serve req w).2).
Proof.
  intros Hnext Hwf.
  assert (wf_store (db (dispatch_request req w).2)) as Hd.
  { unfold dispatch_request.
    destruct (matching_rules url_map (req_path req)) as [|c cands] eqn:Hmatch;
      [done|].
    destruct (first_allowing (req_method req) (c :: cands)) as [[r args]|] eqn:Hfirst;
      [|done].
    apply first_allowing_elem in Hfirst. rewrite <- Hmatch in Hfirst.
    apply matching_rules_elem in Hfirst.
    unfold url_map in Hfirst. rewrite !elem_of_cons, elem_of_nil in Hfirst.
    destruct Hfirst as [->|[->|[->|[->|[->|[]]]]]]; simpl;
      destruct args as [|a [|b args]]; simpl;
      auto using create_accounts_wf, read_account_wf, update_products_wf. }
  unfold serve. by destruct (dispatch_request req w) as [[e|resp] w'].
Qed.

(** The id a creation hands out was not in use. *)
Lemma create_accounts_id_fresh (w : world) :
  wf_store (db w) -> rows (db w) !! next_id (db w) = None.
Proof. apply wf_store_fresh. Qed.

(** ** What a request can be dispatched to *)

Lemma first_allowing_spec (m : method) (cands : list (rule * list Z))
    (r : rule) (args : list Z) :
  first_allowing m cands = Some (r, args) ->
  (r, args) ∈ cands /\ m ∈ rule_methods r.
Proof.
  induction cands as [|[r' args'] cands IH]; simpl; [done|].
  case_bool_decide as Hm.
  - intros [= -> ->]. split; [rewrite elem_of_cons; by left | done].
  - intros H'. destruct (IH H') as [Hin ?]. split; [|done].
    rewrite elem_of_cons. by right.
Qed.

Lemma matching_rules_spec (rs : list rule) (path : string)
    (r : rule) (args : list Z) :
  (r, args) ∈ matching_rules rs path ->
  r ∈ rs /\ match_pieces (rule_pieces r) path = Some args.
Proof.
  induction rs as [|r' rs IH]; simpl; [by rewrite elem_of_nil|].
  destruct (match_pieces (rule_pieces r') path) as [args'|] eqn:Hm.
  - rewrite !elem_of_cons. intros [[= -> ->]|Hin].
    + split; [by left | done].
    + destruct (IH Hin). split; [by right | done].
  - intros Hin. destruct (IH Hin). split; [|done].
    rewrite elem_of_cons. by right.
Qed.

(** A rule without converter hands no argument to its view. *)
Lemma match_lit_args (s path : string) (args : list Z) :
  match_pieces [Lit s] path = Some args -> args = [].
Proof.
  cbn [match_pieces]. destruct (strip_prefix s path) as [rest|]; [|done].
  by destruct (String.eqb rest ""); intros [= <-].
Qed.

(** A rule with one [<int:...>] converter hands exactly one. *)
Lemma match_lit_int_args (s path : string) (args : list Z) :
  match_pieces [Lit s; IntConv] path = Some args -> exists n : Z, args = [n].
Proof.
  cbn [match_pieces]. destruct (strip_prefix s path) as [rest|]; [|done].
  destruct (span_digits rest) as [ds tl].
  destruct ds as [|c ds]; [done|].
  destruct (digits_value 0 (String c ds)) as [n|]; [|done].
  destruct (String.eqb tl ""); [|done].
  intros [= <-]. by exists n.
Qed.

Lemma dispatch_request_dispatched (req : request) :
  dispatched req (dispatch_request req).
Proof.
  unfold dispatch_request.
  destruct (matching_rules url_map (req_path req)) as [|c cands] eqn:Hmatch;
    [constructor|].
  destruct (first_allowing (req_method req) (c :: cands)) as [[r args]|] eqn:Hfirst;
    [|constructor].
  apply first_allowing_spec in Hfirst as [Hin Hmeth].
  rewrite <- Hmatch in Hin. apply matching_rules_spec in Hin as [Hr Hargs].
  unfold url_map in Hr. rewrite !elem_of_cons, elem_of_nil in Hr.
  destruct Hr as [->|[->|[->|[->|[->|[]]]]]];
    cbn [rule_methods rule_pieces rule_view] in Hmeth, Hargs |- *;
    rewrite elem_of_cons, elem_of_nil in Hmeth; destruct Hmeth as [Hmeth|[]].
  - apply match_lit_args in Hargs as ->. by constructor.
  - apply match_lit_args in Hargs as ->. by constructor.
  - apply match_lit_args in Hargs as ->. by constructor.
  - apply match_lit_int_args in Hargs as [n ->]. by constructor.
  - apply match_lit_int_args in Hargs as [n ->]. by constructor.
Qed.

(** ** The views, run step by step *)

Lemma read_account_run (i : Z) (req : request) (w : world) (row : Account.t) :
  rows (db w) !! i = Some row ->
  read_account i req w =
  (inr (mkResponse status.HTTP_200_OK [] (Some (Account_to_dict row))),
   mkWorld (db w) (today w) (calls w ++ [CallFind i; CallSerialize])).
Proof. intros Hrow. run. rewrite Hrow. simpl. by rewrite <- !app_assoc. Qed.

Lemma read_account_db (i : Z) (req : request) (w : world) :
  db (read_account i req w).2 = db w.
Proof. run. by destruct (rows (db w) !! i). Qed.

Lemma create_accounts_run (req : request) (w : world)
    (kvs : list (string * json)) (n e a : string) (p : option string) (d : date) :
  headers_get "Content-Type" (req_headers req) = Some "application/json" ->
  req_json req = Some (JObj kvs) ->
  account_payload (today w) kvs n e a p d ->
  let created := Account.mk (Some (next_id (db w))) (Some n) (Some e) (Some a) p (Some d) in
  create_accounts req w =
  (inr (mkResponse status.HTTP_201_CREATED [("Location", "/")]
          (Some (Account_to_dict created))),
   mkWorld (mkStore (<[next_id (db w) := created]> (rows (db w))) (next_id (db w) + 1))
     (today w)
     (calls w ++ [CallGetJson; CallDeserialize; CallCreate; CallSerialize])).
Proof.
  intros Hct Hjson Hpay. unfold create_accounts.
  rewrite check_content_type_ok by done.
  run. rewrite Hjson. simpl.
  rewrite (populate_payload _ _ _ _ _ _ _ _ Hpay). simpl.
  by rewrite <- !app_assoc.
Qed.

Lemma update_products_run (i : Z) (req : request) (w : world) (row : Account.t)
    (kvs : list (string * json)) (n e a : string) (p : option string) (d : date) :
  headers_get "Content-Type" (req_headers req) = Some "application/json" ->
  rows (db w) !! i = Some row ->
  req_json req = Some (JObj kvs) ->
  account_payload (today w) kvs n e a p d ->
  let updated := Account.mk (Some i) (Some n) (Some e) (Some a) p (Some d) in
  update_products i req w =
  (inr (mkResponse status.HTTP_200_OK [] (Some (Account_to_dict updated))),
   mkWorld (mkStore (<[i := updated]> (rows (db w))) (next_id (db w)))
     (today w)
     (calls w ++ [CallFind i; CallGetJson; CallDeserialize; CallUpdate; CallSerialize])).
Proof.
  intros Hct Hrow Hjson Hpay. unfold update_products.
  rewrite check_content_type_ok by done.
  run. rewrite Hrow. simpl. rewrite Hjson. simpl.
  rewrite (populate_payload _ _ _ _ _ _ _ _ Hpay). simpl.
  rewrite Hrow. simpl. by rewrite <- !app_assoc.
Qed.

(** What [update_products] comes to: an error that leaves the table as it
    was, or a 200 that rewrote the row [i], which was there. *)
Lemma update_products_outcomes (i : Z) (req : request) (w : world) :
  let '(r, w') := update_products i req w in
  match r with
  | inl e =>
      db w' = db w /\
      (e = HTTPException status.HTTP_415_UNSUPPORTED_MEDIA_TYPE
             "Content-Type must be application/json"
       \/ e = HTTPException status.HTTP_404_NOT_FOUND (not_found_message i)
       \/ (exists msg, e = HTTPException status.HTTP_400_BAD_REQUEST msg)
       \/ is_validation_error e)
  | inr resp =>
      status_code resp = status.HTTP_200_OK /\
      next_id (db w') = next_id (db w) /\
      exists row updated : Account.t,
        rows (db w) !! i = Some row /\
        rows (db w') = <[i := updated]> (rows (db w))
  end.
Proof.
  unfold update_products.
  destruct (decide (headers_get "Content-Type" (req_headers req)
                    = Some "application/json")) as [Hct|Hct].
  - rewrite check_content_type_ok by done. run.
    destruct (rows (db w) !! i) as [row|] eqn:Hrow; simpl; [|by auto].
    destruct (req_json req) as [data|]; simpl; [|by eauto 6].
    destruct (populate (today w) row data) as [e|acc] eqn:Hpop; simpl.
    { split; [done|]. do 3 right. eapply populate_error, Hpop. }
    rewrite Hrow. simpl. repeat split. eauto.
  - rewrite check_content_type_mismatch by done. run. auto.
Qed.

(** What [create_accounts] does to the table: nothing on an error, one
    insertion under the next id on a 201. *)
Lemma create_accounts_db (req : request) (w : world) :
  let '(r, w') := create_accounts req w in
  match r with
  | inl _ => db w' = db w
  | inr _ =>
      exists created : Account.t,
        db w' = mkStore (<[next_id (db w) := created]> (rows (db w)))
                  (next_id (db w) + 1)
  end.
Proof.
  unfold create_accounts.
  destruct (decide (headers_get "Content-Type" (req_headers req)
                    = Some "application/json")) as [Hct|Hct].
  - rewrite check_content_type_ok by done. run.
    destruct (req_json req) as [data|]; simpl; [|done].
    destruct (populate (today w) Account.blank data) as [e|acc]; simpl; [done|].
    eauto.
  - rewrite check_content_type_mismatch by done. by run.
Qed.

(** ** The two service endpoints *)

(** X1: of the methods GET, POST, PUT, DELETE and PATCH, the two service
    endpoints take GET alone, and then always answer the same: [/health]
    with [{"status": "OK"}] and [/] with the name and the version of the
    service, both 200; under POST, PUT, DELETE and PATCH they are answered
    405. Headers, body and table play no part, and the world is left as it
    was. *)
Theorem service_endpoints (m : method) (hs : list (string * string))
    (body : option json) (w : world) :
  serve (mkRequest m "/health" hs body) w =
    ((if bool_decide (m = GET)
      then mkResponse 200 [] (Some (JObj [("status", JStr "OK")]))
      else error_response
             (HTTPException 405 "The method is not allowed for the requested URL.")),
     w) /\
  serve (mkRequest m "/" hs body) w =
    ((if bool_decide (m = GET)
      then mkResponse 200 []
             (Some (JObj [("name", JStr "Account REST API Service");
                          ("version", JStr "1.0")]))
      else error_response
             (HTTPException 405 "The method is not allowed for the requested URL.")),
     w).
Proof.
  assert (matching_rules url_map "/health"
          = [(mkRule [Lit "/health"] [GET] (View0 health), [])]) as Hh by reflexivity.
  assert (matching_rules url_map "/"
          = [(mkRule [Lit "/"] [GET] (View0 index), [])]) as Hi by reflexivity.
  unfold serve, dispatch_request. cbn [req_path req_method]. rewrite Hh, Hi.
  split; case_bool_decide as Hm; subst; try reflexivity; by destruct m.
Qed.

(** ** Reading *)

(** X2: a GET on [/accounts/{i}] for a row that exists is answered 200 with
    the serialized row; no Content-Type is asked for, the body is not
    parsed, and the table is only looked up. *)
Theorem read_account_found (i : Z) (hs : list (string * string))
    (body : option json) (w : world) (row : Account.t) :
  0 <= i ->
  rows (db w) !! i = Some row ->
  serve (mkRequest GET (account_url i) hs body) w =
  (mkResponse status.HTTP_200_OK [] (Some (Account_to_dict row)),
   mkWorld (db w) (today w) (calls w ++ [CallFind i; CallSerialize])).
Proof.
  intros Hi Hrow. unfold serve.
  rewrite (dispatch_account_url i) by done. cbn [req_method].
  by rewrite (read_account_run i (mkRequest GET (account_url i) hs body) w row Hrow).
Qed.

Lemma read_account_found_witness :
  let row := Account.mk (Some 1) (Some "Ada") (Some "ada@example.org")
               (Some "12 Main St") None (Some (mkDate 2020 1 1)) in
  serve (mkRequest GET "/accounts/1" [] None)
        (mkWorld (mkStore {[ 1 := row ]} 2) (mkDate 2024 2 29) []) =
  (mkResponse 200 []
     (Some (JObj [ ("id", JNum 1); ("name", JStr "Ada");
                   ("email", JStr "ada@example.org");
                   ("address", JStr "12 Main St");
                   ("phone_number", JNull);
                   ("date_joined", JStr "2020-01-01") ])),
   mkWorld (mkStore {[ 1 := row ]} 2) (mkDate 2024 2 29) [CallFind 1; CallSerialize]).
Proof.
  intros row.
  apply (read_account_found 1 [] None
           (mkWorld (mkStore {[ 1 := row ]} 2) (mkDate 2024 2 29) []) row);
    [lia | reflexivity].
Defined.

(** X3: a GET never changes the table, whatever path it asks for. *)
Theorem get_leaves_table (req : request) (w : world) :
  req_method req = GET -> db (serve req w).2 = db w.
Proof.
  intros Hm.
  assert (db (dispatch_request req w).2 = db w) as Hd.
  { destruct (dispatch_request_dispatched req) as [| | | |Hc|i|i Hu];
      [done..| | |]; [congruence | apply read_account_db | congruence]. }
  unfold serve. by destruct (dispatch_request req w) as [[e|resp] w'].
Qed.

Lemma get_leaves_table_witness :
  let row := Account.mk (Some 1) (Some "Ada") (Some "ada@example.org")
               (Some "12 Main St") None (Some (mkDate 2020 1 1)) in
  let w := mkWorld (mkStore {[ 1 := row ]} 2) (mkDate 2024 2 29) [] in
  db (serve (mkRequest GET "/accounts/1" [("Content-Type", "application/json")]
               (Some (JObj [("name", JStr "x")]))) w).2 = db w.
Proof.
  apply get_leaves_table. reflexivity.
Defined.

(** ** Methods a path does not take *)

(** X4: on [/accounts] every method other than POST is answered 405, and the
    world is as it was. *)
Theorem accounts_only_post (req : request) (w : world) :
  req_path req = "/accounts" ->
  req_method req <> POST ->
  serve req w =
  (mkResponse status.HTTP_405_METHOD_NOT_ALLOWED []
     (Some (JObj [("message", JStr "The method is not allowed for the requested URL.")])),
   w).
Proof.
  intros Hp Hm. unfold serve. rewrite dispatch_accounts by done.
  by destruct (req_method req).
Qed.

Lemma accounts_only_post_witness :
  serve (mkRequest PUT "/accounts" [("Content-Type", "application/json")]
           (Some (JObj [("name", JStr "n")])))
        (mkWorld (mkStore ∅ 1) (mkDate 2024 1 1) []) =
  (mkResponse 405 []
     (Some (JObj [("message", JStr "The method is not allowed for the requested URL.")])),
   mkWorld (mkStore ∅ 1) (mkDate 2024 1 1) []).
Proof.
  apply accounts_only_post; [reflexivity | discriminate].
Defined.

(** X5: on [/accounts/{i}] every method other than GET and PUT is answered
    405, whether the row exists or not, and the world is as it was. *)
Theorem account_item_only_get_put (i : Z) (req : request) (w : world) :
  0 <= i ->
  req_path req = account_url i ->
  req_method req <> GET ->
  req_method req <> PUT ->
  serve req w =
  (mkResponse status.HTTP_405_METHOD_NOT_ALLOWED []
     (Some (JObj [("message", JStr "The method is not allowed for the requested URL.")])),
   w).
Proof.
  intros Hi Hp Hg Hu. unfold serve. rewrite (dispatch_account_url i) by done.
  by destruct (req_method req).
Qed.

Lemma account_item_only_get_put_witness :
  serve (mkRequest POST (account_url 3) [("Content-Type", "application/json")]
           (Some (JObj [("name", JStr "n"); ("email", JStr "e"); ("address", JStr "a")])))
        (mkWorld (mkStore ∅ 1) (mkDate 2024 1 1) []) =
  (mkResponse 405 []
     (Some (JObj [("message", JStr "The method is not allowed for the requested URL.")])),
   mkWorld (mkStore ∅ 1) (mkDate 2024 1 1) []).
Proof.
  apply (account_item_only_get_put 3); [lia | reflexivity | discriminate | discriminate].
Defined.

(** ** [check_content_type] on its own *)

(** X6: [check_content_type] lets the request through exactly when the
    Content-Type header is there, is not empty and equals the expected
    media type; in every other case it aborts with 415 and the message
    naming the expected type. It never touches the world. *)
Theorem check_content_type_spec (media_type : string) (req : request) (w : world) :
  check_content_type media_type req w =
  if bool_decide (headers_get "Content-Type" (req_headers req) = Some media_type
                  /\ media_type <> "")
  then (inr tt, w)
  else (inl (HTTPException status.HTTP_415_UNSUPPORTED_MEDIA_TYPE
               ("Content-Type must be " +:+ media_type)), w).
Proof.
  unfold check_content_type, truthy.
  destruct (headers_get "Content-Type" (req_headers req)) as [ct|].
  - destruct (String.eqb_spec ct "") as [->|Hne]; cbn [negb andb].
    + case_bool_decide as H2; [|done]. destruct H2 as [[= <-] ?]. done.
    + case_bool_decide as H1; case_bool_decide as H2; try done.
      * destruct H2. split; [done|]. injection H1 as <-. done.
      * destruct H2 as [H2 _]. done.
  - cbn [andb]. case_bool_decide as H2; [|done]. by destruct H2.
Qed.

(** ** What a write can answer, and when it writes *)

(** X7: a POST on [/accounts] with Content-Type [application/json] whose body
    is not JSON, or is JSON that fails deserialization, is answered 400;
    [create()] is never called and the table is as it was. *)
Theorem create_accounts_bad_body (req : request) (w : world) :
  req_method req = POST ->
  req_path req = "/accounts" ->
  headers_get "Content-Type" (req_headers req) = Some "application/json" ->
  (req_json req = None \/
   exists (data : json) (e : exn),
     req_json req = Some data /\ populate (today w) Account.blank data = inl e) ->
  let '(resp, w') := serve req w in
  status_code resp = status.HTTP_400_BAD_REQUEST /\
  db w' = db w /\
  exists cs : list call, calls w' = (calls w ++ cs)%list /\ CallCreate ∉ cs.
Proof.
  intros Hm Hp Hct Hbody. unfold serve.
  rewrite dispatch_accounts, Hm by done.
  unfold create_accounts. rewrite check_content_type_ok by done. run.
  destruct Hbody as [-> | (data & e & -> & Hpop)]; simpl.
  - repeat split. exists [CallGetJson]. split; [done|].
    rewrite elem_of_cons, elem_of_nil. by intros [|[]].
  - rewrite Hpop. simpl. destruct (populate_error _ _ _ _ Hpop) as [msg ->]. simpl.
    repeat split. exists [CallGetJson; CallDeserialize].
    split; [by rewrite <- !app_assoc|].
    rewrite !elem_of_cons, elem_of_nil. by intros [|[|[]]].
Qed.

Lemma create_accounts_bad_body_witness :
  let w := mkWorld (mkStore ∅ 1) (mkDate 2024 1 1) [] in
  let '(resp, w') :=
    serve (client_post_json BASE_URL (JObj [("name", JStr "not enough data")])) w in
  status_code resp = 400 /\
  db w' = db w /\
  exists cs : list call, calls w' = (calls w ++ cs)%list /\ CallCreate ∉ cs.
Proof.
  intros w.
  apply (create_accounts_bad_body
           (client_post_json BASE_URL (JObj [("name", JStr "not enough data")])) w);
    [reflexivity | reflexivity | reflexivity |].
  right. exists (JObj [("name", JStr "not enough data")]).
  exists (DataValidationError "Invalid Account: missing email").
  split; reflexivity.
Defined.

(** X8: a POST on [/accounts] is answered 415 exactly when its Content-Type
    is absent or is not [application/json]: past [check_content_type],
    nothing in [create_accounts] answers 415. *)
Theorem create_accounts_415_iff (req : request) (w : world) :
  req_method req = POST ->
  req_path req = "/accounts" ->
  (status_code (serve req w).1 = status.HTTP_415_UNSUPPORTED_MEDIA_TYPE
   <-> headers_get "Content-Type" (req_headers req) <> Some "application/json").
Proof.
  intros Hm Hp. unfold serve. rewrite dispatch_accounts, Hm by done.
  unfold create_accounts.
  destruct (decide (headers_get "Content-Type" (req_headers req)
                    = Some "application/json")) as [Hct|Hct].
  - rewrite check_content_type_ok by done. run.
    split; [|done]. intros Hst. exfalso.
    destruct (req_json req) as [data|]; simpl in Hst; [|done].
    destruct (populate (today w) Account.blank data) as [e|acc] eqn:Hpop;
      simpl in Hst; [|done].
    destruct (populate_error _ _ _ _ Hpop) as [msg ->]. done.
  - rewrite check_content_type_mismatch by done. by run.
Qed.

Lemma create_accounts_415_iff_witness :
  let req := mkRequest POST "/accounts" [("Content-Type", "application/xml")]
               (Some (JObj [("name", JStr "n"); ("email", JStr "e");
                            ("address", JStr "a")])) in
  let w := mkWorld (mkStore ∅ 1) (mkDate 2024 1 1) [] in
  status_code (serve req w).1 = 415
  <-> headers_get "Content-Type" (req_headers req) <> Some "application/json".
Proof.
  intros req w. apply (create_accounts_415_iff req w); reflexivity.
Defined.

(** X9: for a PUT on [/accounts/{i}], [i] not negative, the two early
    answers are told by their causes alone: it is a 415 exactly when the
    Content-Type is absent or is not [application/json], and a 404 exactly
    when the Content-Type is right and no row has id [i]. The body plays no
    part in either. *)
Theorem update_products_415_404_iff (i : Z) (req : request) (w : world) :
  0 <= i ->
  req_method req = PUT ->
  req_path req = account_url i ->
  (status_code (serve req w).1 = status.HTTP_415_UNSUPPORTED_MEDIA_TYPE
   <-> headers_get "Content-Type" (req_headers req) <> Some "application/json") /\
  (status_code (serve req w).1 = status.HTTP_404_NOT_FOUND
   <-> headers_get "Content-Type" (req_headers req) = Some "application/json"
       /\ rows (db w) !! i = None).
Proof.
  intros Hi Hm Hp. unfold serve. rewrite (dispatch_account_url i), Hm by done.
  unfold update_products.
  destruct (decide (headers_get "Content-Type" (req_headers req)
                    = Some "application/json")) as [Hct|Hct].
  - rewrite check_content_type_ok by done. run.
    destruct (rows (db w) !! i) as [row|] eqn:Hrow; simpl;
      [|split; split; done].
    assert (forall st : Z, st <> 415 -> st <> 404 ->
              (st = 415 <-> headers_get "Content-Type" (req_headers req)
                            <> Some "application/json") /\
              (st = 404 <-> headers_get "Content-Type" (req_headers req)
                            = Some "application/json" /\ Some row = None)) as Hother.
    { intros st H1 H2. split; split; try done. by intros [_ ?]. }
    destruct (req_json req) as [data|]; simpl; [|by apply Hother].
    destruct (populate (today w) row data) as [e|acc] eqn:Hpop; simpl.
    + destruct (populate_error _ _ _ _ Hpop) as [msg ->]. by apply Hother.
    + rewrite Hrow. by apply Hother.
  - rewrite check_content_type_mismatch by done. run.
    split; split; try done. by intros [? _].
Qed.

Lemma update_products_415_404_iff_witness :
  let req := client_put_json (account_url 5) (JArr []) in
  let w := mkWorld (mkStore ∅ 1) (mkDate 2024 1 1) [] in
  (status_code (serve req w).1 = 415
   <-> headers_get "Content-Type" (req_headers req) <> Some "application/json") /\
  (status_code (serve req w).1 = 404
   <-> headers_get "Content-Type" (req_headers req) = Some "application/json"
       /\ rows (db w) !! 5 = None).
Proof.
  intros req w.
  apply (update_products_415_404_iff 5 req w); [lia | reflexivity | reflexivity].
Defined.

(** What the dispatch does to the table, whatever the request: nothing when
    it raises, and on a result either nothing, or the insertion of a 201, or
    the rewriting of an existing row of a 200. *)
Lemma dispatch_request_db (req : request) (w : world) :
  let '(r, w') := dispatch_request req w in
  match r with
  | inl e =>
      db w' = db w /\
      ((exists code msg, e = HTTPException code msg /\ code <> 200 /\ code <> 201)
       \/ is_validation_error e)
  | inr resp =>
      (status_code resp = 200 \/ status_code resp = 201) /\
      (db w' = db w
       \/ (exists created : Account.t,
             db w' = mkStore (<[next_id (db w) := created]> (rows (db w)))
                       (next_id (db w) + 1))
       \/ (exists (i : Z) (row updated : Account.t),
             rows (db w) !! i = Some row /\
             db w' = mkStore (<[i := updated]> (rows (db w))) (next_id (db w))))
  end.
Proof.
  destruct (dispatch_request_dispatched req) as [| | | |Hc|i Hg|i Hu].
  - simpl. split; [done|]. left. by eexists _, _.
  - simpl. split; [done|]. left. by eexists _, _.
  - simpl. split; [by left | by left].
  - simpl. split; [by left | by left].
  - pose proof (create_accounts_outcomes req w) as Hout.
    pose proof (create_accounts_db req w) as Hdb.
    destruct (create_accounts req w) as [[e|resp] w'].
    + split; [done|].
      destruct Hout as [-> | [[msg ->] | Hv]]; [left|left|by right];
        by eexists _, _.
    + destruct Hout as [-> _]. split; [by right | by right; left].
  - pose proof (read_account_db i req w) as Hdb.
    unfold read_account, Account_find, Account_serialize, abort, raise, record_call,
      get_db, mbind, M_bind, mret, M_ret in *. simpl in *.
    destruct (rows (db w) !! i); simpl in *.
    + split; [by left | by left].
    + split; [done|]. left. by eexists _, _.
  - pose proof (update_products_outcomes i req w) as Hout.
    destruct (update_products i req w) as [[e|resp] w'].
    + destruct Hout as [Hdb He]. split; [done|].
      destruct He as [-> | [-> | [[msg ->] | Hv]]]; [left|left|left|by right];
        by eexists _, _.
    + destruct Hout as (-> & Hnext & row & updated & Hrow & Hrows).
      split; [by left|]. right; right. exists i, row, updated. split; [done|].
      destruct (db w') as [r n]. simpl in *. by subst.
Qed.

(** X10: whatever the request, an answer that is neither 200 nor 201 leaves
    the table exactly as it was. *)
Theorem error_answer_leaves_table (req : request) (w : world) :
  status_code (serve req w).1 <> 200 ->
  status_code (serve req w).1 <> 201 ->
  db (serve req w).2 = db w.
Proof.
  unfold serve. pose proof (dispatch_request_db req w) as H.
  destruct (dispatch_request req w) as [[e|resp] w']; simpl.
  - by destruct H as [-> _].
  - destruct H as [[-> | ->] _]; done.
Qed.

Lemma error_answer_leaves_table_witness :
  let row := Account.mk (Some 1) (Some "Ada") (Some "ada@example.org")
               (Some "12 Main St") None (Some (mkDate 2020 1 1)) in
  let w := mkWorld (mkStore {[ 1 := row ]} 2) (mkDate 2024 2 29) [] in
  let req := client_put_json (account_url 1) (JObj [("name", JStr "only a name")]) in
  db (serve req w).2 = db w.
Proof.
  intros row w req.
  apply (error_answer_leaves_table req w); vm_compute; discriminate.
Defined.

(** X11: no request ever removes a row: every id of the table before is an
    id of the table after. *)
Theorem serve_keeps_ids (req : request) (w : world) :
  dom (rows (db w)) ⊆ dom (rows (db (serve req w).2)).
Proof.
  unfold serve. pose proof (dispatch_request_db req w) as H.
  destruct (dispatch_request req w) as [[e|resp] w']; simpl.
  - by destruct H as [-> _].
  - destruct H as [_ [-> | [[created ->] | (i & row & updated & _ & ->)]]];
      simpl; [done|..]; rewrite dom_insert_L; set_solver.
Qed.

(** ** Requests one after the other *)

Lemma serve_post_valid (w : world) (kvs : list (string * json))
    (n e a : string) (p : option string) (d : date) :
  account_payload (today w) kvs n e a p d ->
  let created := Account.mk (Some (next_id (db w))) (Some n) (Some e) (Some a) p (Some d) in
  serve (client_post_json BASE_URL (JObj kvs)) w =
  (mkResponse status.HTTP_201_CREATED [("Location", "/")]
     (Some (Account_to_dict created)),
   mkWorld (mkStore (<[next_id (db w) := created]> (rows (db w))) (next_id (db w) + 1))
     (today w)
     (calls w ++ [CallGetJson; CallDeserialize; CallCreate; CallSerialize])).
Proof.
  intros Hpay created. unfold serve.
  rewrite dispatch_accounts by done. cbn [client_post_json req_method].
  by rewrite (create_accounts_run (client_post_json BASE_URL (JObj kvs)) w kvs
                n e a p d eq_refl eq_refl Hpay).
Qed.

Lemma serve_put_valid (i : Z) (w : world) (row : Account.t)
    (kvs : list (string * json)) (n e a : string) (p : option string) (d : date) :
  0 <= i ->
  rows (db w) !! i = Some row ->
  account_payload (today w) kvs n e a p d ->
  let updated := Account.mk (Some i) (Some n) (Some e) (Some a) p (Some d) in
  serve (client_put_json (account_url i) (JObj kvs)) w =
  (mkResponse status.HTTP_200_OK [] (Some (Account_to_dict updated)),
   mkWorld (mkStore (<[i := updated]> (rows (db w))) (next_id (db w)))
     (today w)
     (calls w ++ [CallFind i; CallGetJson; CallDeserialize; CallUpdate; CallSerialize])).
Proof.
  intros Hi Hrow Hpay updated. unfold serve.
  rewrite (dispatch_account_url i) by done. cbn [client_put_json req_method].
  by rewrite (update_products_run i (client_put_json (account_url i) (JObj kvs)) w
                row kvs n e a p d eq_refl Hrow eq_refl Hpay).
Qed.

Lemma serve_get_found (i : Z) (w : world) (row : Account.t) :
  0 <= i ->
  rows (db w) !! i = Some row ->
  serve (client_get (account_url i)) w =
  (mkResponse status.HTTP_200_OK [] (Some (Account_to_dict row)),
   mkWorld (db w) (today w) (calls w ++ [CallFind i; CallSerialize])).
Proof.
  intros Hi Hrow. unfold serve.
  rewrite (dispatch_account_url i) by done. cbn [client_get req_method].
  by rewrite (read_account_run i (client_get (account_url i)) w row Hrow).
Qed.

(** X12: an Account that has just been created can be read back: the GET on
    the URL of the id the 201 carries is answered 200 with the very body of
    the 201, and does not change the table. *)
Theorem create_then_read (w : world) (kvs : list (string * json))
    (n e a : string) (p : option string) (d : date) :
  0 <= next_id (db w) ->
  account_payload (today w) kvs n e a p d ->
  let '(created, w1) := serve (client_post_json BASE_URL (JObj kvs)) w in
  let '(found, w2) := serve (client_get (account_url (next_id (db w)))) w1 in
  status_code created = 201 /\
  (exists fields, resp_body created = Some (JObj fields) /\
                  dict_get "id" fields = Some (JNum (next_id (db w)))) /\
  status_code found = 200 /\
  resp_body found = resp_body created /\
  db w2 = db w1.
Proof.
  intros Hnext Hpay. rewrite (serve_post_valid w kvs n e a p d Hpay).
  erewrite serve_get_found; [|done|apply lookup_insert_eq].
  simpl. repeat split. by eexists.
Qed.

Lemma create_then_read_witness :
  let w := mkWorld (mkStore ∅ 1) (mkDate 2024 2 29) [] in
  let kvs := [("name", JStr "Ada"); ("email", JStr "ada@example.org");
              ("address", JStr "12 Main St"); ("phone_number", JStr "555-0100")] in
  let '(created, w1) := serve (client_post_json BASE_URL (JObj kvs)) w in
  let '(found, w2) := serve (client_get (account_url (next_id (db w)))) w1 in
  status_code created = 201 /\
  (exists fields, resp_body created = Some (JObj fields) /\
                  dict_get "id" fields = Some (JNum (next_id (db w)))) /\
  status_code found = 200 /\
  resp_body found = resp_body created /\
  db w2 = db w1.
Proof.
  intros w kvs.
  apply (create_then_read w kvs "Ada" "ada@example.org" "12 Main St"
           (Some "555-0100") (mkDate 2024 2 29)).
  - simpl. lia.
  - repeat split; try reflexivity. right. split; [by left | reflexivity].
Defined.

(** X13: after a PUT that was answered 200, the GET on the same URL is
    answered 200 with the very body of the PUT. *)
Theorem update_then_read (i : Z) (w : world) (row : Account.t)
    (kvs : list (string * json)) (n e a : string) (p : option string) (d : date) :
  0 <= i ->
  rows (db w) !! i = Some row ->
  account_payload (today w) kvs n e a p d ->
  let '(updated, w1) := serve (client_put_json (account_url i) (JObj kvs)) w in
  let '(found, w2) := serve (client_get (account_url i)) w1 in
  status_code updated = 200 /\
  found = updated /\
  db w2 = db w1.
Proof.
  intros Hi Hrow Hpay. rewrite (serve_put_valid i w row kvs n e a p d Hi Hrow Hpay).
  erewrite serve_get_found; [|done|apply lookup_insert_eq].
  done.
Qed.

Lemma update_then_read_witness :
  let row := Account.mk (Some 1) (Some "Ada") (Some "ada@example.org")
               (Some "12 Main St") None (Some (mkDate 2020 1 1)) in
  let w := mkWorld (mkStore {[ 1 := row ]} 2) (mkDate 2024 2 29) [] in
  let kvs := [("name", JStr "John Doe"); ("email", JStr "ada@example.org");
              ("address", JStr "12 Main St"); ("date_joined", JStr "2020-01-01")] in
  let '(updated, w1) := serve (client_put_json (account_url 1) (JObj kvs)) w in
  let '(found, w2) := serve (client_get (account_url 1)) w1 in
  status_code updated = 200 /\
  found = updated /\
  db w2 = db w1.
Proof.
  intros row w kvs.
  apply (update_then_read 1 w row kvs "John Doe" "ada@example.org" "12 Main St"
           None (mkDate 2020 1 1)).
  - lia.
  - reflexivity.
  - repeat split; try reflexivity.
    + simpl. by left.
    + left. exists "2020-01-01". split; reflexivity.
Defined.

(** A payload that carries its [date_joined] reads the same on any day. *)
Lemma account_payload_dated (now later : date) (kvs : list (string * json))
    (n e a : string) (p : option string) (d : date) :
  later = now \/ (exists s : string, dict_get "date_joined" kvs = Some (JStr s)) ->
  account_payload now kvs n e a p d ->
  account_payload later kvs n e a p d.
Proof.
  intros [->|[s Hs]]; [done|].
  intros (Hn & He & Ha & Hp & Hd). repeat split; try done.
  destruct Hd as [Hd | [[Hd | Hd] _]]; [by left | congruence | congruence].
Qed.

(** X14: a PUT is idempotent as long as its body leaves nothing to the
    clock. The same valid update sent a second time, on the same day or, if
    the body carries [date_joined], at any later date, is answered as the
    first time and leaves the table as the first left it. *)
Theorem update_idempotent (i : Z) (w : world) (row : Account.t) (later : date)
    (kvs : list (string * json)) (n e a : string) (p : option string) (d : date) :
  0 <= i ->
  rows (db w) !! i = Some row ->
  account_payload (today w) kvs n e a p d ->
  later = today w \/ (exists s : string, dict_get "date_joined" kvs = Some (JStr s)) ->
  let '(first, w1) := serve (client_put_json (account_url i) (JObj kvs)) w in
  let '(second, w2) :=
    serve (client_put_json (account_url i) (JObj kvs))
          (mkWorld (db w1) later (calls w1)) in
  second = first /\ db w2 = db w1.
Proof.
  intros Hi Hrow Hpay Hlater.
  pose proof (account_payload_dated _ later _ _ _ _ _ _ Hlater Hpay) as Hpay'.
  rewrite (serve_put_valid i w row kvs n e a p d Hi Hrow Hpay).
  erewrite (serve_put_valid i _ _ kvs n e a p d Hi); [|apply lookup_insert_eq|done].
  simpl. split; [done|]. by rewrite insert_insert_eq.
Qed.

Lemma update_idempotent_witness :
  let row := Account.mk (Some 1) (Some "Ada") (Some "ada@example.org")
               (Some "12 Main St") (Some "555-0100") (Some (mkDate 2020 1 1)) in
  let w := mkWorld (mkStore {[ 1 := row ]} 2) (mkDate 2024 2 29) [] in
  let kvs := [("name", JStr "John Doe"); ("email", JStr "ada@example.org");
              ("address", JStr "12 Main St"); ("date_joined", JStr "2020-01-01")] in
  let '(first, w1) := serve (client_put_json (account_url 1) (JObj kvs)) w in
  let '(second, w2) :=
    serve (client_put_json (account_url 1) (JObj kvs))
          (mkWorld (db w1) (mkDate 2024 3 1) (calls w1)) in
  second = first /\ db w2 = db w1.
Proof.
  intros row w kvs.
  apply (update_idempotent 1 w row (mkDate 2024 3 1) kvs
           "John Doe" "ada@example.org" "12 Main St" None (mkDate 2020 1 1)).
  - lia.
  - reflexivity.
  - repeat split; try reflexivity.
    + simpl. by left.
    + left. exists "2020-01-01". split; reflexivity.
  - right. by exists "2020-01-01".
Defined.

(** Without [date_joined] in the body the clock does show: the same update
    sent again on a later day stores that later day. *)
Lemma update_on_a_later_day :
  let row := Account.mk (Some 1) (Some "Ada") (Some "ada@example.org")
               (Some "12 Main St") (Some "555-0100") (Some (mkDate 2020 1 1)) in
  let w := mkWorld (mkStore {[ 1 := row ]} 2) (mkDate 2024 2 29) [] in
  let req := client_put_json (account_url 1)
               (JObj [("name", JStr "John Doe"); ("email", JStr "ada@example.org");
                      ("address", JStr "12 Main St")]) in
  let '(first, w1) := serve req w in
  let '(second, w2) := serve req (mkWorld (db w1) (mkDate 2024 3 1) (calls w1)) in
  status_code first = 200 /\ status_code second = 200 /\ second <> first.
Proof. vm_compute. repeat split. discriminate. Qed.

(** X15: on a well-formed table a successful POST adds exactly one row,
    under an id that was not in use, and keeps every row that was there. *)
Theorem create_adds_one_row (w : world) (kvs : list (string * json))
    (n e a : string) (p : option string) (d : date) :
  wf_store (db w) ->
  account_payload (today w) kvs n e a p d ->
  let w' := (serve (client_post_json BASE_URL (JObj kvs)) w).2 in
  rows (db w) !! next_id (db w) = None /\
  is_Some (rows (db w') !! next_id (db w)) /\
  size (rows (db w')) = S (size (rows (db w))) /\
  (forall (k : Z) (row : Account.t),
      rows (db w) !! k = Some row -> rows (db w') !! k = Some row) /\
  next_id (db w') = next_id (db w) + 1.
Proof.
  intros Hwf Hpay. rewrite (serve_post_valid w kvs n e a p d Hpay). simpl.
  pose proof (wf_store_fresh _ Hwf) as Hfresh.
  split; [done|]. split; [by rewrite lookup_insert_eq|].
  split; [by apply map_size_insert_None|]. split; [|done].
  intros k row Hrow. rewrite lookup_insert_ne; [done|]. intros <-. congruence.
Qed.

Lemma wf_store_singleton :
  wf_store (mkStore {[ 1 := Account.mk (Some 1) (Some "Ada") (Some "ada@example.org")
                            (Some "12 Main St") None (Some (mkDate 2020 1 1)) ]} 2).
Proof.
  intros k row. simpl. rewrite lookup_singleton.
  case_decide as Hk; [|done]. intros [= <-]. subst k. simpl. split; [lia | done].
Qed.

Lemma create_adds_one_row_witness :
  let row := Account.mk (Some 1) (Some "Ada") (Some "ada@example.org")
               (Some "12 Main St") None (Some (mkDate 2020 1 1)) in
  let w := mkWorld (mkStore {[ 1 := row ]} 2) (mkDate 2024 2 29) [] in
  let kvs := [("name", JStr "Bob"); ("email", JStr "bob@example.org");
              ("address", JStr "3 High St")] in
  let w' := (serve (client_post_json BASE_URL (JObj kvs)) w).2 in
  rows (db w) !! next_id (db w) = None /\
  is_Some (rows (db w') !! next_id (db w)) /\
  size (rows (db w')) = S (size (rows (db w))) /\
  (forall (k : Z) (row : Account.t),
      rows (db w) !! k = Some row -> rows (db w') !! k = Some row) /\
  next_id (db w') = next_id (db w) + 1.
Proof.
  intros row w kvs.
  apply (create_adds_one_row w kvs "Bob" "bob@example.org" "3 High St"
           None (mkDate 2024 2 29)).
  - apply wf_store_singleton.
  - repeat split; try reflexivity.
    + simpl. by left.
    + right. split; [by left | reflexivity].
Defined.

(** X16: serving a request keeps the table well-formed, whatever the
    request: ids stay positive and below the next value of the sequence,
    and every row carries the id it is stored under. *)
Theorem serve_keeps_table_well_formed (req : request) (w : world) :
  1 <= next_id (db w) -> wf_store (db w) ->
  wf_store (db (serve req w).2) /\ 1 <= next_id (db (serve req w).2).
Proof.
  intros Hnext Hwf. unfold serve.
  assert (wf_store (db (dispatch_request req w).2)
          /\ 1 <= next_id (db (dispatch_request req w).2)) as Hd.
  { destruct (dispatch_request_dispatched req) as [| | | |Hc|i Hg|i Hu];
      [done..| | |].
    - split; [by apply create_accounts_wf|].
      pose proof (create_accounts_db req w) as Hdb.
      destruct (create_accounts req w) as [[e|resp] w']; simpl.
      + by rewrite Hdb.
      + destruct Hdb as [created ->]. simpl. lia.
    - by rewrite read_account_db.
    - split; [by apply update_products_wf|].
      pose proof (update_products_outcomes i req w) as Hout.
      destruct (update_products i req w) as [[e|resp] w']; simpl.
      + destruct Hout as [-> _]. done.
      + destruct Hout as (_ & -> & _). done. }
  by destruct (dispatch_request req w) as [[e|resp] w'].
Qed.

Lemma serve_keeps_table_well_formed_witness :
  let row := Account.mk (Some 1) (Some "Ada") (Some "ada@example.org")
               (Some "12 Main St") None (Some (mkDate 2020 1 1)) in
  let w := mkWorld (mkStore {[ 1 := row ]} 2) (mkDate 2024 2 29) [] in
  let req := client_post_json BASE_URL
               (JObj [("name", JStr "Bob"); ("email", JStr "bob@example.org");
                      ("address", JStr "3 High St")]) in
  wf_store (db (serve req w).2) /\ 1 <= next_id (db (serve req w).2).
Proof.
  intros row w req.
  apply (serve_keeps_table_well_formed req w).
  - simpl. lia.
  - apply wf_store_singleton.
Defined.

(** X17: a request that is not a POST neither adds nor removes a row, and
    does not advance the id sequence. *)
Theorem only_post_creates (req : request) (w : world) :
  req_method req <> POST ->
  dom (rows (db (serve req w).2)) = dom (rows (db w)) /\
  next_id (db (serve req w).2) = next_id (db w).
Proof.
  intros Hm.
  assert (dom (rows (db (dispatch_request req w).2)) = dom (rows (db w)) /\
          next_id (db (dispatch_request req w).2) = next_id (db w)) as Hd.
  { destruct (dispatch_request_dispatched req) as [| | | |Hc|i Hg|i Hu];
      [done..| | |].
    - done.
    - by rewrite read_account_db.
    - pose proof (update_products_outcomes i req w) as Hout.
      destruct (update_products i req w) as [[e|resp] w']; simpl.
      + by destruct Hout as [-> _].
      + destruct Hout as (_ & -> & row & updated & Hrow & ->).
        split; [|done]. rewrite dom_insert_L.
        apply elem_of_dom_2 in Hrow.
        apply subseteq_union_1_L. by apply singleton_subseteq_l. }
  unfold serve. by destruct (dispatch_request req w) as [[e|resp] w'].
Qed.

Lemma only_post_creates_witness :
  let row := Account.mk (Some 1) (Some "Ada") (Some "ada@example.org")
               (Some "12 Main St") None (Some (mkDate 2020 1 1)) in
  let w := mkWorld (mkStore {[ 1 := row ]} 2) (mkDate 2024 2 29) [] in
  let req := client_put_json (account_url 1)
               (JObj [("name", JStr "Bob"); ("email", JStr "bob@example.org");
                      ("address", JStr "3 High St")]) in
  dom (rows (db (serve req w).2)) = dom (rows (db w)) /\
  next_id (db (serve req w).2) = next_id (db w).
Proof.
  intros row w req. apply (only_post_creates req w). discriminate.
Defined.

(** ** The bulk creation of the test suite *)

Lemma wf_store_insert_next (s : Store) (created : Account.t) :
  1 <= next_id s ->
  wf_store s ->
  Account.id created = Some (next_id s) ->
  wf_store (mkStore (<[next_id s := created]> (rows s)) (next_id s + 1)).
Proof.
  intros Hnext Hwf Hid k row. simpl. rewrite lookup_insert.
  case_decide as Hk.
  - intros [= <-]. subst k. split; [lia | done].
  - intros Hrow. destruct (Hwf _ _ Hrow). split; [lia | done].
Qed.

Lemma _create_accounts_cons (body : json) (rest : list json) (w : world) :
  _create_accounts (body :: rest) w =
  let '(response, w1) := serve (client_post_json BASE_URL body) w in
  if bool_decide (status_code response = status.HTTP_201_CREATED) then
    match resp_body response with
    | Some (JObj new_account) =>
        match dict_get "id" new_account with
        | Some i =>
            let '(accounts, w2) := _create_accounts rest w1 in
            (cons i <$> accounts, w2)
        | None => (None, w1)
        end
    | _ => (None, w1)
    end
  else (None, w1).
Proof. reflexivity. Qed.

(** X18: [_create_accounts] on [n] valid bodies, from a well-formed table,
    never trips its assertion: every POST is answered 201, the ids it
    collects are the [n] consecutive values of the sequence, the table has
    [n] more rows and the rows that were there are kept. *)
Theorem create_accounts_in_bulk (bodies : list json) (w : world) :
  1 <= next_id (db w) ->
  wf_store (db w) ->
  Forall (valid_body (today w)) bodies ->
  let '(accounts, w') := _create_accounts bodies w in
  accounts = Some (JNum <$> seqZ (next_id (db w)) (Z.of_nat (length bodies))) /\
  next_id (db w') = next_id (db w) + Z.of_nat (length bodies) /\
  size (rows (db w')) = (size (rows (db w)) + length bodies)%nat /\
  (forall (k : Z) (row : Account.t),
      rows (db w) !! k = Some row -> rows (db w') !! k = Some row).
Proof.
  revert w. induction bodies as [|body rest IH]; intros w Hnext Hwf Hvalid.
  { simpl. repeat split; [lia | lia | done]. }
  apply Forall_cons in Hvalid as [(kvs & n & e & a & p & d & -> & Hpay) Hrest].
  rewrite _create_accounts_cons, (serve_post_valid w kvs n e a p d Hpay).
  cbn [status_code resp_body Account_to_dict Account.id json_of_option].
  rewrite bool_decide_eq_true_2 by done.
  change (dict_get "id" _) with (Some (JNum (next_id (db w)))).
  set (created := Account.mk (Some (next_id (db w))) (Some n) (Some e) (Some a) p (Some d)).
  set (w1 := mkWorld _ _ _).
  pose proof (wf_store_fresh _ Hwf) as Hfresh.
  assert (wf_store (db w1)) as Hwf1 by (by apply wf_store_insert_next).
  specialize (IH w1 ltac:(simpl; lia) Hwf1 Hrest).
  destruct (_create_accounts rest w1) as [accounts w2].
  destruct IH as (-> & Hn & Hsize & Hkeep).
  cbn [length]. rewrite Nat2Z.inj_succ.
  split.
  { rewrite (seqZ_cons (next_id (db w))), Z.pred_succ by lia. reflexivity. }
  split; [rewrite Hn; subst w1; cbn [db next_id]; lia|].
  split.
  { rewrite Hsize. subst w1. cbn [db rows].
    rewrite map_size_insert_None by done. lia. }
  intros k row Hrow. apply Hkeep. simpl.
  rewrite lookup_insert_ne; [done|]. intros <-. congruence.
Qed.

Lemma create_accounts_in_bulk_witness :
  let w := mkWorld (mkStore ∅ 1) (mkDate 2024 2 29) [] in
  let body (name : string) :=
    JObj [("name", JStr name); ("email", JStr "someone@example.org");
          ("address", JStr "3 High St")] in
  let bodies := [body "a"; body "b"; body "c"; body "d"; body "e"] in
  let '(accounts, w') := _create_accounts bodies w in
  accounts = Some (JNum <$> seqZ (next_id (db w)) (Z.of_nat (length bodies))) /\
  next_id (db w') = next_id (db w) + Z.of_nat (length bodies) /\
  size (rows (db w')) = (size (rows (db w)) + length bodies)%nat /\
  (forall (k : Z) (row : Account.t),
      rows (db w) !! k = Some row -> rows (db w') !! k = Some row).
Proof.
  intros w body bodies.
  apply (create_accounts_in_bulk bodies w).
  - simpl. lia.
  - intros k row. simpl. by rewrite lookup_empty.
  - repeat apply Forall_cons_2; try apply Forall_nil_2;
      eexists _, _, "someone@example.org", "3 High St", None, (mkDate 2024 2 29);
      (split; [reflexivity|]);
      (repeat split; try reflexivity; [simpl; by left | right; split; [by left | reflexivity]]).
Defined.

(** ** Order of the checks in [update_products] *)

(** X19: in a PUT on [/accounts/{i}] the lookup comes before the body: when
    no row has id [i], the answer is the 404 with the message of a failed
    read, even for a body that is not JSON or not a valid Account, and the
    only call made is the lookup. *)
Theorem update_not_found_before_body (i : Z) (body : option json) (w : world) :
  0 <= i ->
  rows (db w) !! i = None ->
  serve (mkRequest PUT (account_url i) [("Content-Type", "application/json")] body) w =
  (mkResponse status.HTTP_404_NOT_FOUND []
     (Some (JObj [("message",
                   JStr ("Account with id '" +:+ pretty i +:+ "' was not found."))])),
   mkWorld (db w) (today w) (calls w ++ [CallFind i])).
Proof.
  intros Hi Hrow. unfold serve.
  rewrite (dispatch_account_url i) by done. cbn [req_method].
  unfold update_products. rewrite check_content_type_ok by done.
  run. by rewrite Hrow.
Qed.

Lemma update_not_found_before_body_witness :
  serve (mkRequest PUT "/accounts/0" [("Content-Type", "application/json")] None)
        (mkWorld (mkStore ∅ 1) (mkDate 2024 1 1) []) =
  (mkResponse 404 []
     (Some (JObj [("message", JStr "Account with id '0' was not found.")])),
   mkWorld (mkStore ∅ 1) (mkDate 2024 1 1) [CallFind 0]).
Proof.
  apply (update_not_found_before_body 0 None
           (mkWorld (mkStore ∅ 1) (mkDate 2024 1 1) [])); [lia | reflexivity].
Defined.

(** ** The URL of an Account and the [<int:id>] rules *)

(** X20: the decimal URL of a non-negative id is routed back to that id:
    [/accounts/{i}] reaches [read_account i] under GET and
    [update_products i] under PUT, and is a 405 under POST, DELETE and
    PATCH; an integer written with a minus sign reaches no view under any
    of these five methods and is the router's 404. *)
Theorem account_url_routing (i : Z) (m : method) (hs : list (string * string))
    (body : option json) :
  let req := mkRequest m (account_url i) hs body in
  dispatch_request req =
  if bool_decide (0 <= i) then
    match m with
    | GET => read_account i req
    | PUT => update_products i req
    | _ => abort status.HTTP_405_METHOD_NOT_ALLOWED
             "The method is not allowed for the requested URL."
    end
  else abort status.HTTP_404_NOT_FOUND not_found_description.
Proof.
  intros req. case_bool_decide as Hi.
  - by rewrite (dispatch_account_url i).
  - by rewrite (dispatch_account_url_neg i) by (done || lia).
Qed.

(** ** What a successful update stores *)

(** X21: whatever account the deserialization of the body yields, a PUT on
    [/accounts/{i}] for a row that exists stores that account under [i] with
    its [id] set back to [i], so that a body cannot move the row to another
    id; the answer is 200 with the serialization of what was stored, the
    other rows and the id sequence are as they were, and the calls are, in
    order, the lookup, the body, deserialize, update and serialize. *)
Theorem update_stores_deserialized (i : Z) (req : request) (w : world)
    (row acc : Account.t) (data : json) :
  0 <= i ->
  req_method req = PUT ->
  req_path req = account_url i ->
  headers_get "Content-Type" (req_headers req) = Some "application/json" ->
  rows (db w) !! i = Some row ->
  req_json req = Some data ->
  populate (today w) row data = inr acc ->
  let updated := Account.set_id (Some i) acc in
  serve req w =
  (mkResponse status.HTTP_200_OK [] (Some (Account_to_dict updated)),
   mkWorld (mkStore (<[i := updated]> (rows (db w))) (next_id (db w)))
     (today w)
     (calls w ++ [CallFind i; CallGetJson; CallDeserialize; CallUpdate; CallSerialize])).
Proof.
  intros Hi Hm Hp Hct Hrow Hjson Hpop updated. unfold serve.
  rewrite (dispatch_account_url i), Hm by done.
  unfold update_products. rewrite check_content_type_ok by done.
  run. rewrite Hrow. simpl. rewrite Hjson. simpl. rewrite Hpop. simpl.
  rewrite Hrow. simpl. by rewrite <- !app_assoc.
Qed.

Lemma update_stores_deserialized_witness :
  let row := Account.mk (Some 1) (Some "Ada") (Some "ada@example.org")
               (Some "12 Main St") (Some "555-0100") (Some (mkDate 2020 1 1)) in
  let w := mkWorld (mkStore {[ 1 := row ]} 2) (mkDate 2024 2 29) [] in
  let data := JObj [("id", JNum 999); ("name", JStr "John Doe");
                    ("email", JStr "ada@example.org"); ("address", JStr "12 Main St");
                    ("phone_number", JStr "555-0100");
                    ("date_joined", JStr "2020-01-01")] in
  let updated := Account.mk (Some 1) (Some "John Doe") (Some "ada@example.org")
                   (Some "12 Main St") (Some "555-0100") (Some (mkDate 2020 1 1)) in
  serve (client_put_json (account_url 1) data) w =
  (mkResponse 200 [] (Some (Account_to_dict updated)),
   mkWorld (mkStore (<[1 := updated]> (rows (db w))) 2) (mkDate 2024 2 29)
     [CallFind 1; CallGetJson; CallDeserialize; CallUpdate; CallSerialize]).
Proof.
  intros row w data updated.
  apply (update_stores_deserialized 1 (client_put_json (account_url 1) data) w
           row updated data); [lia | reflexivity..].
Defined.

(** ** Dates as text, there and back *)

Lemma pad_ok_2 : forallb (pad_ok 2) (seq 0 (Z.to_nat 100)) = true.
Proof. vm_compute. reflexivity. Qed.

Lemma pad_ok_4 : forallb (pad_ok 4) (seq 0 (Z.to_nat 10000)) = true.
Proof. vm_compute. reflexivity. Qed.

Lemma zero_pad_text (w : nat) (bound n : Z) :
  forallb (pad_ok w) (seq 0 (Z.to_nat bound)) = true ->
  0 <= n < bound ->
  String.length (zero_pad w (pretty n)) = w /\
  digits_value 0 (zero_pad w (pretty n)) = Some n.
Proof.
  intros Hall Hn. rewrite forallb_forall in Hall.
  specialize (Hall (Z.to_nat n)). rewrite in_seq in Hall.
  specialize (Hall ltac:(lia)). unfold pad_ok in Hall.
  rewrite Z2Nat.id in Hall by lia.
  apply andb_true_iff in Hall as [Hlen Hval].
  split; [by apply Nat.eqb_eq | by apply bool_decide_eq_true in Hval].
Qed.

(** A date text of the right lengths is read field by field. *)
Lemma date_fromisoformat_parts (ys ms ds : string) :
  String.length ys = 4%nat -> String.length ms = 2%nat -> String.length ds = 2%nat ->
  date_fromisoformat (ys +:+ "-" +:+ ms +:+ "-" +:+ ds) =
  match digits_value 0 ys, digits_value 0 ms, digits_value 0 ds with
  | Some y, Some m, Some d =>
      if valid_date (mkDate y m d) then Some (mkDate y m d) else None
  | _, _, _ => None
  end.
Proof.
  intros Hy Hm Hd.
  destruct ys as [|y1 [|y2 [|y3 [|y4 [|]]]]]; try discriminate.
  destruct ms as [|m1 [|m2 [|]]]; try discriminate.
  destruct ds as [|d1 [|d2 [|]]]; try discriminate.
  reflexivity.
Qed.

(** The ISO text of a valid date is read back as that date. *)
Lemma date_fromisoformat_isoformat (d : date) :
  valid_date d = true -> date_fromisoformat (date_isoformat d) = Some d.
Proof.
  intros Hvalid. pose proof Hvalid as Hv. unfold valid_date in Hv.
  repeat (apply andb_true_iff in Hv as [Hv ?]).
  assert (days_in_month (year d) (month d) <= 31) as Hdim.
  { unfold days_in_month. repeat case_match; lia. }
  destruct (zero_pad_text 4 10000 (year d) pad_ok_4 ltac:(lia)) as [Hly Hvy].
  destruct (zero_pad_text 2 100 (month d) pad_ok_2 ltac:(lia)) as [Hlm Hvm].
  destruct (zero_pad_text 2 100 (day d) pad_ok_2 ltac:(lia)) as [Hld Hvd].
  unfold date_isoformat.
  rewrite date_fromisoformat_parts by done.
  rewrite Hvy, Hvm, Hvd. destruct d as [y m dd]. simpl in *. by rewrite Hvalid.
Qed.

(** Only valid dates are read. *)
Lemma date_fromisoformat_valid (s : string) (d : date) :
  date_fromisoformat s = Some d -> valid_date d = true.
Proof.
  unfold date_fromisoformat. case_match; [done|].
  repeat case_match; try done. intros [= <-].
  match goal with H : _ && _ && valid_date _ = true |- _ =>
    apply andb_true_iff in H as [_ H]; exact H end.
Qed.

(** ** The scenario of [test_update_account] *)

Lemma date_given_valid (now : date) (kvs : list (string * json)) (d : date) :
  valid_date now = true -> date_given now kvs d -> valid_date d = true.
Proof.
  intros Hnow [(s & _ & Hs) | [_ ->]]; [|done].
  eapply date_fromisoformat_valid, Hs.
Qed.

(** X22: the body of a 201, sent back by PUT to the URL of its [id] with the
    [name] replaced, is answered 200 with exactly what was sent: the new
    [name], and every other field as it was created. (The clock is taken to
    show a valid date.) *)
Theorem update_created_account (w : world) (kvs : list (string * json))
    (n e a : string) (p : option string) (d : date) (new_name : string) :
  0 <= next_id (db w) ->
  valid_date (today w) = true ->
  account_payload (today w) kvs n e a p d ->
  let '(created, w1) := serve (client_post_json BASE_URL (JObj kvs)) w in
  exists new_account : list (string * json),
    status_code created = 201 /\
    resp_body created = Some (JObj new_account) /\
    let sent := dict_set "name" (JStr new_name) new_account in
    let '(updated, w2) :=
      serve (client_put_json (account_url (next_id (db w))) (JObj sent)) w1 in
    status_code updated = 200 /\
    resp_body updated = Some (JObj sent) /\
    dict_get "name" sent = Some (JStr new_name) /\
    forall key : string,
      key <> "name" -> dict_get key sent = dict_get key new_account.
Proof.
  intros Hnext Hnow Hpay.
  pose proof Hpay as (_ & _ & _ & _ & Hd).
  pose proof (date_given_valid _ _ _ Hnow Hd) as Hvalid.
  rewrite (serve_post_valid w kvs n e a p d Hpay).
  eexists. split; [reflexivity|]. split; [reflexivity|].
  cbn [dict_set String.eqb Ascii.eqb Bool.eqb].
  set (sent := [("id", _); ("name", JStr new_name); _; _; _; _]).
  assert (account_payload (today w) sent new_name e a p d) as Hsent.
  { repeat split; try reflexivity.
    - destruct p; simpl; [reflexivity | by right].
    - left. exists (date_isoformat d). split; [reflexivity|].
      by apply date_fromisoformat_isoformat. }
  erewrite (serve_put_valid (next_id (db w)) _ _ sent new_name e a p d Hnext);
    [|apply lookup_insert_eq|exact Hsent].
  repeat split.
  intros key Hkey. subst sent. cbn [dict_get].
  destruct (String.eqb_spec "name" key) as [<-|_]; [done|reflexivity].
Qed.

Lemma update_created_account_witness :
  let w := mkWorld (mkStore ∅ 1) (mkDate 2024 2 29) [] in
  let kvs := [("name", JStr "Ada"); ("email", JStr "ada@example.org");
              ("address", JStr "12 Main St"); ("phone_number", JStr "555-0100")] in
  let '(created, w1) := serve (client_post_json BASE_URL (JObj kvs)) w in
  exists new_account : list (string * json),
    status_code created = 201 /\
    resp_body created = Some (JObj new_account) /\
    let sent := dict_set "name" (JStr "John Doe") new_account in
    let '(updated, w2) :=
      serve (client_put_json (account_url (next_id (db w))) (JObj sent)) w1 in
    status_code updated = 200 /\
    resp_body updated = Some (JObj sent) /\
    dict_get "name" sent = Some (JStr "John Doe") /\
    forall key : string,
      key <> "name" -> dict_get key sent = dict_get key new_account.
Proof.
  intros w kvs.
  apply (update_created_account w kvs "Ada" "ada@example.org" "12 Main St"
           (Some "555-0100") (mkDate 2024 2 29) "John Doe").
  - simpl. lia.
  - reflexivity.
  - repeat split; try reflexivity. right. split; [by left | reflexivity].
Defined.
